(** * The ping input plugin (plugins/inputs/ping/ping.go), embedded in Rocq

    The development follows the layout of the Go file:

    - the pieces of the Go standard library the plugin calls ([strings],
      [strconv], the one regular expression, [float64] arithmetic),
    - the output parser ([processPingOutput] and its three helpers),
    - the command builder ([args]),
    - the probe runner ([pingToURL], [hostPinger]) over an explicit world
      holding the accumulator, the wait group and a call log.

    [Gather] starts one goroutine per target after [p.wg.Add(1)] and waits;
    the goroutines are not modelled, a probe is one call of [pingToURL] in a
    world whose wait-group counter already counts it.

    Go strings are byte sequences: [string] (a list of [ascii]) is the same
    data.  Go's [int] is the 64-bit one.  A [float64] is a [spec_float] at
    precision 53 and maximal exponent 1024, each operation rounded to nearest
    even on its own (no fused multiply-add).  A Go [error] is [option error],
    [None] being [nil].  A run-time panic is the [Panic] result of [go]. *)

From Stdlib Require Import ZArith Ascii String List Lia DecimalString.
From Stdlib Require Import Floats.SpecFloat.
From stdpp Require Import base option list strings gmap.

Local Open Scope string_scope.
Local Open Scope list_scope.
Local Open Scope Z_scope.

(** ** Results of Go code: a value or a run-time panic *)

Inductive go (A : Type) : Type :=
  | Ret (a : A)
  | Panic (msg : string).
Arguments Ret {A} a.
Arguments Panic {A} msg.

#[global] Instance go_ret : MRet go := fun A a => Ret a.
#[global] Instance go_bind : MBind go := fun A B f m =>
  match m with
  | Ret a => f a
  | Panic msg => Panic msg
  end.

(** [s[i]] on a slice: a panic when [i] is not below [len(s)]. *)
Definition index {A : Type} (s : list A) (i : nat) : go A :=
  match s !! i with
  | Some x => Ret x
  | None => Panic "runtime error: index out of range"
  end.

(** ** 64-bit integers *)

Definition minInt64 : Z := - 2 ^ 63.
Definition maxInt64 : Z := 2 ^ 63 - 1.
Definition maxUint64 : Z := 2 ^ 64 - 1.

(** Wrap-around of [int] arithmetic. *)
Definition wrap64 (n : Z) : Z := (n + 2 ^ 63) mod 2 ^ 64 - 2 ^ 63.

(** ** Package strings *)

Module strings.

Fixpoint HasPrefix (s prefix : string) : bool :=
  match prefix, s with
  | EmptyString, _ => true
  | String c prefix', String d s' =>
      if Ascii.eqb c d then HasPrefix s' prefix' else false
  | String _ _, EmptyString => false
  end.

Fixpoint Contains (s substr : string) : bool :=
  HasPrefix s substr ||
  match s with
  | EmptyString => false
  | String _ s' => Contains s' substr
  end.

(** [splitFrom sep skip s]: the pieces of [s] cut at every occurrence of
    [sep], scanning left to right; [skip] counts the bytes of an
    occurrence just found that are still to be dropped. *)
Fixpoint splitFrom (sep : string) (skip : nat) (s : string) : list string :=
  match s with
  | EmptyString => [EmptyString]
  | String c s' =>
      match skip with
      | S k => splitFrom sep k s'
      | O =>
          if HasPrefix s sep
          then EmptyString :: splitFrom sep (String.length sep - 1) s'
          else match splitFrom sep 0 s' with
               | piece :: pieces => String c piece :: pieces
               | [] => [String c EmptyString]
               end
      end
  end.

(** [strings.Split(s, sep)] for a non-empty [sep], the only use the plugin
    makes of it.  (With an empty [sep] Go explodes [s] into its UTF-8
    sequences; here it is exploded into bytes.) *)
Definition Split (s sep : string) : list string :=
  match sep with
  | EmptyString => (fun c => String c EmptyString) <$> list_ascii_of_string s
  | String _ _ => splitFrom sep 0 s
  end.

(** The white space of [unicode.IsSpace] that fits in one byte of ASCII. *)
Definition isSpace (c : ascii) : bool :=
  let n := nat_of_ascii c in
  ((9 <=? n) && (n <=? 13))%nat || (n =? 32)%nat.

(** The white space of [unicode.IsSpace] that takes two bytes of UTF-8:
    U+0085 (C2 85) and U+00A0 (C2 A0). *)
Definition isSpace2 (b0 b1 : ascii) : bool :=
  let n0 := nat_of_ascii b0 in
  let n1 := nat_of_ascii b1 in
  ((n0 =? 194) && ((n1 =? 133) || (n1 =? 160)))%nat.

(** The white space of [unicode.IsSpace] that takes three bytes of UTF-8:
    U+1680 (E1 9A 80), U+2000 to U+200A (E2 80 80 to E2 80 8A), U+2028,
    U+2029 and U+202F (E2 80 A8, E2 80 A9, E2 80 AF), U+205F (E2 81 9F) and
    U+3000 (E3 80 80). *)
Definition isSpace3 (b0 b1 b2 : ascii) : bool :=
  let n0 := nat_of_ascii b0 in
  let n1 := nat_of_ascii b1 in
  let n2 := nat_of_ascii b2 in
  (((n0 =? 225) && (n1 =? 154) && (n2 =? 128)) ||
   ((n0 =? 226) && (n1 =? 128) &&
    (((128 <=? n2) && (n2 <=? 138)) || (n2 =? 168) || (n2 =? 169) ||
     (n2 =? 175))) ||
   ((n0 =? 226) && (n1 =? 129) && (n2 =? 159)) ||
   ((n0 =? 227) && (n1 =? 128) && (n2 =? 128)))%nat.

(** [strings.TrimLeftFunc(s, unicode.IsSpace)]: the white-space runes at the
    head of [s] are dropped.  A byte that starts no valid rune is the rune
    U+FFFD, which is no white space. *)
Fixpoint TrimLeft (s : string) : string :=
  match s with
  | EmptyString => EmptyString
  | String b0 s1 =>
      if isSpace b0 then TrimLeft s1
      else
        match s1 with
        | EmptyString => s
        | String b1 s2 =>
            if isSpace2 b0 b1 then TrimLeft s2
            else
              match s2 with
              | EmptyString => s
              | String b2 s3 =>
                  if isSpace3 b0 b1 b2 then TrimLeft s3 else s
              end
        end
  end.

Fixpoint reverseOnto (s acc : string) : string :=
  match s with
  | EmptyString => acc
  | String c s' => reverseOnto s' (String c acc)
  end.

Definition reverse (s : string) : string := reverseOnto s EmptyString.

(** The same on a text read from its end: [r] is the text reversed, so a
    rune shows its last byte first. *)
Fixpoint trimReversed (r : string) : string :=
  match r with
  | EmptyString => EmptyString
  | String b r1 =>
      if isSpace b then trimReversed r1
      else
        match r1 with
        | EmptyString => r
        | String a r2 =>
            if isSpace2 a b then trimReversed r2
            else
              match r2 with
              | EmptyString => r
              | String z r3 =>
                  if isSpace3 z a b then trimReversed r3 else r
              end
        end
  end.

(** [strings.TrimRightFunc(s, unicode.IsSpace)]: the white-space runes at
    the end of [s] are dropped. *)
Definition TrimRight (s : string) : string :=
  reverse (trimReversed (reverse s)).

(** [strings.TrimSpace]: the white space, as Unicode defines it, is dropped
    at both ends. *)
Definition TrimSpace (s : string) : string := TrimRight (TrimLeft s).

End strings.

(** ** Errors *)

Inductive numErr := ErrSyntax | ErrRange.

(** [syscall.WaitStatus], seen through its only observer here,
    [ExitStatus()]: the exit code, or -1 when the process did not exit. *)
Record WaitStatus := { ExitStatus : Z }.

(** The error values that reach the plugin.  [ExitError sys] is an
    [*exec.ExitError] whose [Sys()] is a [syscall.WaitStatus] when [sys] is
    [Some _]; [otherError] stands for any other error of a collaborator (a
    failed lookup, a missing binary, a timeout).  [fmt.Errorf] is kept
    symbolic: the format and its operands. *)
Inductive error :=
  | errorsNew (text : string)
  | NumError (Func Num : string) (Err : numErr)
  | ExitError (sys : option WaitStatus)
  | otherError (text : string)
  | fmtErrorf (format : string) (a : list fmtArg)
with fmtArg :=
  | argString (s : string)
  | argError (e : error).

(** ** Package strconv *)

Module strconv.

Definition isDigit (c : ascii) : bool :=
  let n := nat_of_ascii c in ((48 <=? n) && (n <=? 57))%nat.

Definition digitVal (c : ascii) : Z := Z.of_nat (nat_of_ascii c) - 48.

(** The digit loop of [ParseUint(s, 10, 64)]: a byte that is no digit is a
    syntax error, an overflow is reported as soon as it happens. *)
Fixpoint parseUintLoop (s : string) (n : Z) : Z * option numErr :=
  match s with
  | EmptyString => (n, None)
  | String c s' =>
      if isDigit c then
        if n >=? maxUint64 / 10 + 1 then (maxUint64, Some ErrRange)
        else
          let n1 := n * 10 + digitVal c in
          if n1 >? maxUint64 then (maxUint64, Some ErrRange)
          else parseUintLoop s' n1
      else (0, Some ErrSyntax)
  end.

Definition ParseUint (s : string) : Z * option numErr :=
  match s with
  | EmptyString => (0, Some ErrSyntax)
  | _ => parseUintLoop s 0
  end.

(** [ParseInt(s, 10, 0)]. *)
Definition ParseInt (s : string) : Z * option numErr :=
  match s with
  | EmptyString => (0, Some ErrSyntax)
  | String c s' =>
      let neg := Ascii.eqb c "-" in
      let digits := if Ascii.eqb c "+" || neg then s' else s in
      match ParseUint digits with
      | (_, Some ErrSyntax) => (0, Some ErrSyntax)
      | (un, _) =>
          if negb neg && (un >=? 2 ^ 63) then (maxInt64, Some ErrRange)
          else if neg && (un >? 2 ^ 63) then (minInt64, Some ErrRange)
          else (if neg then - un else un, None)
      end
  end.

(** [strconv.Atoi]: on well-formed input its fast path and [ParseInt]
    agree, and everything else goes through [ParseInt]. *)
Definition Atoi (s : string) : Z * option error :=
  match ParseInt s with
  | (n, None) => (n, None)
  | (n, Some e) => (n, Some (NumError "Atoi" s e))
  end.

(** [strconv.Itoa]. *)
Definition Itoa (i : Z) : string := NilZero.string_of_int (Z.to_int i).

End strconv.

(** ** float64 *)

Definition float64 : Type := spec_float.

Module f64.

Definition prec : Z := 53.
Definition emax : Z := 1024.

(** [float64(n)] for an integer [n]. *)
Definition ofInt (n : Z) : float64 := binary_normalize prec emax n 0 false.

Definition add : float64 -> float64 -> float64 := SFadd prec emax.
Definition mul : float64 -> float64 -> float64 := SFmul prec emax.
Definition div : float64 -> float64 -> float64 := SFdiv prec emax.

(** [x > 0] and [x >= 0]; both are false on a NaN. *)
Definition gt0 (x : float64) : bool := SFltb (S754_zero false) x.
Definition ge0 (x : float64) : bool := SFleb (S754_zero false) x.

(** The float64 nearest to [num / den] (ties to even), with sign [neg];
    [0 <= num] and [0 < den]. *)
Definition ofRatio (neg : bool) (num den : Z) : float64 :=
  match num, den with
  | Z0, _ => S754_zero neg
  | Zpos n, Zpos d => div (S754_finite neg n 0) (S754_finite false d 0)
  | _, _ => S754_nan
  end.

(** [int64(x)]: truncation toward zero.  Go leaves the result open when
    the value does not fit; amd64 gives the smallest int64. *)
Definition toInt64 (x : float64) : Z :=
  match x with
  | S754_zero _ => 0
  | S754_finite s m e =>
      let a := match e with
               | Zneg k => Z.shiftr (Zpos m) (Zpos k)
               | _ => Z.shiftl (Zpos m) e
               end in
      let v := if s then - a else a in
      if (minInt64 <=? v) && (v <=? maxInt64) then v else minInt64
  | _ => minInt64
  end.

(** [x] is the binary64 number nearest to [num / den]: a normal number
    whose distance to [num / den] is at most half a unit in the last
    place, [|m * 2^e - num/den| <= 2^e / 2] with [e < 0]. *)
Definition nearest (x : float64) (num den : Z) : bool :=
  match x with
  | S754_finite false m (Zneg k) =>
      bounded prec emax m (Zneg k) &&
      (Zpos (digits2_pos m) =? prec) &&
      (2 * Z.abs (Zpos m * den - num * 2 ^ Zpos k) <=? den)
  | _ => false
  end.

End f64.

Module strconvFloat.
Import strconv.

Definition lower (c : ascii) : ascii :=
  let n := nat_of_ascii c in
  if ((65 <=? n) && (n <=? 90))%nat then ascii_of_nat (n + 32) else c.

Fixpoint equalIgnoreCase (s t : string) : bool :=
  match s, t with
  | EmptyString, EmptyString => true
  | String c s', String d t' =>
      Ascii.eqb (lower c) (lower d) && equalIgnoreCase s' t'
  | _, _ => false
  end.

(** [special]: the infinities and NaN by name. *)
Definition special (s : string) : option float64 :=
  match s with
  | EmptyString => None
  | String c _ =>
      if Ascii.eqb c "+" then
        if equalIgnoreCase s "+inf" || equalIgnoreCase s "+infinity"
        then Some (S754_infinity false) else None
      else if Ascii.eqb c "-" then
        if equalIgnoreCase s "-inf" || equalIgnoreCase s "-infinity"
        then Some (S754_infinity true) else None
      else if Ascii.eqb (lower c) "n" then
        if equalIgnoreCase s "nan" then Some S754_nan else None
      else if Ascii.eqb (lower c) "i" then
        if equalIgnoreCase s "inf" || equalIgnoreCase s "infinity"
        then Some (S754_infinity false) else None
      else None
  end.

(** The mantissa loop of [readFloat]: digits with at most one point.
    [D] is the number written by the digits read so far, [frac] how many
    of them follow the point.  [None] on a second point; otherwise the
    unread rest. *)
Fixpoint readMantissa (s : string) (sawdot sawdigits : bool) (D frac : Z)
  : option (string * bool * Z * Z) :=
  match s with
  | EmptyString => Some (s, sawdigits, D, frac)
  | String c s' =>
      if Ascii.eqb c "." then
        if sawdot then None else readMantissa s' true sawdigits D frac
      else if isDigit c then
        readMantissa s' sawdot true (D * 10 + digitVal c)
                     (if sawdot then frac + 1 else frac)
      else Some (s, sawdigits, D, frac)
  end.

(** The digits of the exponent, to the end of the text; the value stops
    growing once it has reached 10000. *)
Fixpoint readExpDigits (s : string) (e : Z) : option Z :=
  match s with
  | EmptyString => Some e
  | String c s' =>
      if isDigit c
      then readExpDigits s' (if e <? 10000 then e * 10 + digitVal c else e)
      else None
  end.

(** What follows the mantissa: nothing, or [e]/[E], an optional sign and
    at least one digit. *)
Definition readExponent (s : string) : option Z :=
  match s with
  | EmptyString => Some 0
  | String c s' =>
      if Ascii.eqb (lower c) "e" then
        match s' with
        | EmptyString => None
        | String d s'' =>
            let '(esign, ds) :=
              if Ascii.eqb d "+" then (1, s'')
              else if Ascii.eqb d "-" then (-1, s'')
              else (1, s') in
            match ds with
            | EmptyString => None
            | String x _ =>
                if isDigit x
                then (fun e => esign * e) <$> readExpDigits ds 0
                else None
            end
        end
      else None
  end.

(** [readFloat] on decimal text: sign, the digits as one integer and the
    power of ten that scales it. *)
Definition readFloat (s : string) : option (bool * Z * Z) :=
  match s with
  | EmptyString => None
  | String c s' =>
      let neg := Ascii.eqb c "-" in
      let body := if Ascii.eqb c "+" || neg then s' else s in
      match readMantissa body false false 0 0 with
      | Some (rest, true, D, frac) =>
          (fun e => (neg, D, e - frac)) <$> readExponent rest
      | _ => None
      end
  end.

(** [strconv.ParseFloat(s, 64)] for the decimal syntax and the named
    special values: the nearest float64 to the number written, with
    [ErrRange] and an infinity when that number is too large, and
    [ErrSyntax] and 0 when [s] is not a number.  (Hexadecimal mantissas and
    digit-separating underscores, which later Go releases also accept, are
    syntax errors here.) *)
Definition ParseFloat (s : string) : float64 * option error :=
  match special s with
  | Some f => (f, None)
  | None =>
      match readFloat s with
      | None => (S754_zero false, Some (NumError "ParseFloat" s ErrSyntax))
      | Some (neg, D, exp10) =>
          let f := if 0 <=? exp10
                   then f64.ofRatio neg (D * 10 ^ exp10) 1
                   else f64.ofRatio neg D (10 ^ (- exp10)) in
          match f with
          | S754_infinity _ => (f, Some (NumError "ParseFloat" s ErrRange))
          | _ => (f, None)
          end
      end
  end.

(** The literal [-1.0], the "not observed" sentinel, and the other
    constants of the plugin. *)
Definition minus1 : float64 := f64.ofInt (-1).

End strconvFloat.

(** ** The regular expression [ttl=(\d+)] *)

Module regexp.
Import strings strconv.

(** The longest run of digits at the head of [s]: what [\d+] takes. *)
Fixpoint takeDigits (s : string) : string :=
  match s with
  | String c s' => if isDigit c then String c (takeDigits s') else EmptyString
  | EmptyString => EmptyString
  end.

Definition drop4 (s : string) : string :=
  match s with
  | String _ (String _ (String _ (String _ s'))) => s'
  | _ => EmptyString
  end.

(** [ttlLine.FindStringSubmatch(line)] for
    [ttlLine = regexp.MustCompile(`ttl=(\d+)`)]: the leftmost place where
    [ttl=] is followed by a digit; the whole match and the digits of
    group 1.  The nil slice when there is no such place. *)
Fixpoint ttlLine_FindStringSubmatch (line : string) : list string :=
  match line with
  | EmptyString => []
  | String _ rest =>
      let digits := takeDigits (drop4 line) in
      if HasPrefix line "ttl=" && negb (String.eqb digits EmptyString)
      then ["ttl=" +:+ digits; digits]
      else ttlLine_FindStringSubmatch rest
  end.

End regexp.

(** ** The output parser *)

Import strings strconv strconvFloat regexp.

(** What [processPingOutput] returns:
    [(trans, recv, ttl, min, avg, max, stddev, err)]. *)
Definition pingStats : Type :=
  Z * Z * Z * float64 * float64 * float64 * float64 * option error.

Definition getPacketStats (line : string) (trans recv : Z)
  : go (Z * Z * option error) :=
  let stats := Split line ", " in
  (* Transmitted packets *)
  stats0 ← index stats 0;
  tok ← index (Split stats0 " ") 0;
  let '(trans, err) := Atoi tok in
  match err with
  | Some _ => Ret (trans, recv, err)
  | None =>
      (* Received packets *)
      stats1 ← index stats 1;
      tok ← index (Split stats1 " ") 0;
      let '(recv, err) := Atoi tok in
      Ret (trans, recv, err)
  end.

Definition getTTL (line : string) : go (Z * option error) :=
  let ttlMatch := ttlLine_FindStringSubmatch line in
  digits ← index ttlMatch 1;
  Ret (Atoi digits).

Definition checkRoundTripTimeStats (line : string) (min avg max stddev : float64)
  : go (float64 * float64 * float64 * float64 * option error) :=
  stats ← index (Split line " ") 3;
  let data := Split stats "/" in
  data0 ← index data 0;
  let '(min, err) := ParseFloat data0 in
  match err with
  | Some _ => Ret (min, avg, max, stddev, err)
  | None =>
      data1 ← index data 1;
      let '(avg, err) := ParseFloat data1 in
      match err with
      | Some _ => Ret (min, avg, max, stddev, err)
      | None =>
          data2 ← index data 2;
          let '(max, err) := ParseFloat data2 in
          match err with
          | Some _ => Ret (min, avg, max, stddev, err)
          | None =>
              if (length data =? 4)%nat then
                data3 ← index data 3;
                let '(stddev, err) := ParseFloat data3 in
                Ret (min, avg, max, stddev, err)
              else Ret (min, avg, max, stddev, err)
          end
      end
  end.

(** The loop of [processPingOutput] over the lines still to read, with the
    variables of the function as they stand.  A [return] inside the loop
    ends the recursion. *)
Fixpoint processLines (lines : list string) (trans recv ttl : Z)
    (min avg max stddev : float64) (err : option error) : go pingStats :=
  match lines with
  | [] => Ret (trans, recv, ttl, min, avg, max, stddev, err)
  | line :: lines =>
      (* Reading only first TTL, ignoring other TTL messages *)
      if (ttl =? -1) && Contains line "ttl=" then
        '(ttl, err) ← getTTL line;
        processLines lines trans recv ttl min avg max stddev err
      else if Contains line "transmitted" && Contains line "received" then
        '(trans, recv, err) ← getPacketStats line trans recv;
        match err with
        | Some _ => Ret (trans, recv, ttl, min, avg, max, stddev, err)
        | None => processLines lines trans recv ttl min avg max stddev err
        end
      else if Contains line "min/avg/max" then
        '(min, avg, max, stddev, err) ←
          checkRoundTripTimeStats line min avg max stddev;
        match err with
        | Some _ => Ret (trans, recv, ttl, min, avg, max, stddev, err)
        | None => processLines lines trans recv ttl min avg max stddev err
        end
      else processLines lines trans recv ttl min avg max stddev err
  end.

Definition newline : string := String (ascii_of_nat 10) EmptyString.

Definition processPingOutput (out : string) : go pingStats :=
  (* Set this error to nil if we find a 'transmitted' line *)
  let err := Some (errorsNew "Fatal error processing ping output") in
  let lines := Split out newline in
  processLines lines 0 0 (-1) minus1 minus1 minus1 minus1 err.

(** ** The world around one probe *)

(** A field value: the [interface{}] of [fields] holds an [int] or a
    [float64]. *)
Inductive value :=
  | VInt (n : Z)
  | VFloat (f : float64).

(** One [acc.AddFields(measurement, fields, tags)]. *)
Record metric := {
  measurement : string;
  fields : gmap string value;
  tags : gmap string string
}.

(** The calls made to the collaborators and to the parser, in order. *)
Inductive event :=
  | EvLookupHost (host : string)
  | EvPingHost (binary : string) (timeout : float64) (args : list string)
  | EvLookPath (file : string)
  | EvCombinedOutputTimeout (bin : string) (args : list string) (timeout : Z)
  | EvProcessPingOutput (out : string).

(** [accErrors] and [accMetrics] are what the accumulator has received,
    oldest first; [wg] is the counter of [p.wg]; [trace] is the call log. *)
Record World := {
  accErrors : list error;
  accMetrics : list metric;
  wg : Z;
  trace : list event
}.

(** Go code with effects: it ends with a value or a panic, in a new world. *)
Definition M (A : Type) : Type := World -> go A * World.

#[global] Instance M_ret : MRet M := fun A a w => (Ret a, w).
#[global] Instance M_bind : MBind M := fun A B f m w =>
  match m w with
  | (Ret a, w') => f a w'
  | (Panic msg, w') => (Panic msg, w')
  end.

(** A pure computation that may panic, run inside [M]. *)
Definition liftGo {A : Type} (g : go A) : M A := fun w => (g, w).

(** The four ways the world changes. *)
Definition logged (w : World) (es : list event) : World :=
  {| accErrors := accErrors w; accMetrics := accMetrics w;
     wg := wg w; trace := trace w ++ es |}.

Definition failed (w : World) (err : error) : World :=
  {| accErrors := accErrors w ++ [err]; accMetrics := accMetrics w;
     wg := wg w; trace := trace w |}.

Definition reported (w : World) (m : metric) : World :=
  {| accErrors := accErrors w; accMetrics := accMetrics w ++ [m];
     wg := wg w; trace := trace w |}.

Definition counted (w : World) (delta : Z) : World :=
  {| accErrors := accErrors w; accMetrics := accMetrics w;
     wg := wg w + delta; trace := trace w |}.

Definition logEvent (e : event) : M unit := fun w => (Ret tt, logged w [e]).

(** [acc.AddError(err)] *)
Definition AddError (err : error) : M unit := fun w => (Ret tt, failed w err).

(** [acc.AddFields(measurement, fields, tags)] *)
Definition AddFields (name : string) (fs : gmap string value)
    (ts : gmap string string) : M unit := fun w =>
  (Ret tt, reported w {| measurement := name; fields := fs; tags := ts |}).

(** [wg.Add(delta)] and [wg.Done()]: a counter that goes negative panics. *)
Definition wg_Add (delta : Z) : M unit := fun w =>
  if wg w + delta <? 0
  then (Panic "sync: negative WaitGroup counter", counted w delta)
  else (Ret tt, counted w delta).

Definition wg_Done : M unit := wg_Add (-1).

(** [defer d] at the head of a function with body [body]: [d] runs when the
    body returns and also when it panics. *)
Definition defer {A : Type} (d : M unit) (body : M A) : M A := fun w =>
  let '(r, w') := body w in
  match d w' with
  | (Ret _, w'') => (r, w'')
  | (Panic msg, w'') =>
      (match r with Ret _ => Panic msg | Panic _ => r end, w'')
  end.

(** HostPinger is a function that runs the "ping" function using a list of
    passed arguments. *)
Definition HostPinger : Type :=
  string -> float64 -> list string -> M (string * option error).

Record Ping := {
  (* Interval at which to ping (ping -i <INTERVAL>) *)
  PingInterval : float64;
  (* Number of pings to send (ping -c <COUNT>) *)
  Count : Z;
  (* Ping timeout, in seconds. 0 means no timeout (ping -W <TIMEOUT>) *)
  Timeout : float64;
  (* Ping deadline, in seconds. 0 means no deadline. (ping -w <DEADLINE>) *)
  Deadline : Z;
  (* Interface or source address to send ping from *)
  Interface : string;
  (* URLs to ping *)
  Urls : list string;
  (* Ping executable binary *)
  Binary : string;
  (* Arguments for ping command. *)
  Arguments : list string;
  (* host ping function *)
  pingHost : HostPinger
}.

(** [time.Second], in nanoseconds. *)
Definition Second : Z := 1000000000.

Section Plugin.

(** The collaborators: [runtime.GOOS]; [net.LookupHost]; [exec.LookPath];
    [internal.CombinedOutputTimeout] on the command [exec.Command(bin,
    args...)], with the output already converted to a string; and
    [strconv.FormatFloat(_, 'f', -1, 64)]. *)
Variable GOOS : string.
Variable LookupHost : string -> list string * option error.
Variable LookPath : string -> string * option error.
Variable CombinedOutputTimeout :
  string -> list string -> Z -> string * option error.
Variable FormatFloat : float64 -> string.

(** args returns the arguments for the 'ping' executable *)
Definition args (p : Ping) (url system : string) : list string :=
  if (0 <? length (Arguments p))%nat then Arguments p ++ [url]
  else
    (* build the ping command args based on toml config *)
    let args := ["-c"; Itoa (Count p); "-n"; "-s"; "16"] in
    let args :=
      if f64.gt0 (PingInterval p)
      then args ++ ["-i"; FormatFloat (PingInterval p)]
      else args in
    let args :=
      if f64.gt0 (Timeout p) then
        if String.eqb system "darwin" then
          args ++ ["-W"; FormatFloat (f64.mul (Timeout p) (f64.ofInt 1000))]
        else if String.eqb system "freebsd" || String.eqb system "netbsd"
                || String.eqb system "openbsd" then
          args ++ ["-W"; FormatFloat (f64.mul (Timeout p) (f64.ofInt 1000))]
        else if String.eqb system "linux" then
          args ++ ["-W"; FormatFloat (Timeout p)]
        else
          (* Not sure the best option here, just assume GNU ping? *)
          args ++ ["-W"; FormatFloat (Timeout p)]
      else args in
    let args :=
      if 0 <? Deadline p then
        if String.eqb system "darwin" || String.eqb system "freebsd"
           || String.eqb system "netbsd" || String.eqb system "openbsd" then
          args ++ ["-t"; Itoa (Deadline p)]
        else if String.eqb system "linux" then
          args ++ ["-w"; Itoa (Deadline p)]
        else
          (* not sure the best option here, just assume gnu ping? *)
          args ++ ["-w"; Itoa (Deadline p)]
      else args in
    let args :=
      if negb (String.eqb (Interface p) "") then
        if String.eqb system "darwin" then
          args ++ ["-I"; Interface p]
        else if String.eqb system "freebsd" || String.eqb system "netbsd"
                || String.eqb system "openbsd" then
          args ++ ["-s"; Interface p]
        else if String.eqb system "linux" then
          args ++ ["-I"; Interface p]
        else
          (* not sure the best option here, just assume gnu ping? *)
          args ++ ["-i"; Interface p]
      else args in
    args ++ [url].

(** [loss := float64(trans-rec) / float64(trans) * 100.0] *)
Definition packetLoss (trans rec : Z) : float64 :=
  f64.mul (f64.div (f64.ofInt (wrap64 (trans - rec))) (f64.ofInt trans))
          (f64.ofInt 100).

(** The end of [pingToURL], from the call of [processPingOutput] on: it is
    reached when the binary ran without error and when it exited with
    status 1. *)
Definition parseAndReport (u out : string) (fields : gmap string value)
    (tags : gmap string string) : M unit :=
  logEvent (EvProcessPingOutput out);;
  '(trans, rec, ttl, min, avg, max, stddev, err) ←
    liftGo (processPingOutput out);
  match err with
  | Some err =>
      (* fatal error *)
      AddError (fmtErrorf "%s: %s" [argError err; argString u]);;
      let fields := <["result_code" := VInt 2]> fields in
      AddFields "ping" fields tags
  | None =>
      (* Calculate packet loss percentage *)
      let loss := packetLoss trans rec in
      let fields := <["packets_transmitted" := VInt trans]> fields in
      let fields := <["packets_received" := VInt rec]> fields in
      let fields := <["percent_packet_loss" := VFloat loss]> fields in
      let fields :=
        if 0 <=? ttl then <["ttl" := VInt ttl]> fields else fields in
      let fields :=
        if f64.ge0 min
        then <["minimum_response_ms" := VFloat min]> fields else fields in
      let fields :=
        if f64.ge0 avg
        then <["average_response_ms" := VFloat avg]> fields else fields in
      let fields :=
        if f64.ge0 max
        then <["maximum_response_ms" := VFloat max]> fields else fields in
      let fields :=
        if f64.ge0 stddev
        then <["standard_deviation_ms" := VFloat stddev]> fields
        else fields in
      AddFields "ping" fields tags
  end.

(** [totalTimeout] as [pingToURL] computes it. *)
Definition totalTimeout (p : Ping) : float64 :=
  if (length (Arguments p) =? 0)%nat then
    f64.add (f64.mul (f64.ofInt (Count p)) (Timeout p))
            (f64.mul (f64.ofInt (wrap64 (Count p - 1))) (PingInterval p))
  else f64.ofInt 60.

Definition pingToURL (p : Ping) (u : string) : M unit :=
  defer wg_Done (
    let tags : gmap string string := {[ "url" := u ]} in
    let fields : gmap string value := {[ "result_code" := VInt 0 ]} in
    logEvent (EvLookupHost u);;
    let '(_, err) := LookupHost u in
    match err with
    | Some err =>
        AddError err;;
        let fields := <["result_code" := VInt 1]> fields in
        AddFields "ping" fields tags
    | None =>
        let args := args p u GOOS in
        let totalTimeout := totalTimeout p in
        logEvent (EvPingHost (Binary p) totalTimeout args);;
        '(out, err) ← pingHost p (Binary p) totalTimeout args;
        match err with
        | None => parseAndReport u out fields tags
        | Some err =>
            (* Some implementations of ping return a 1 exit code on
               timeout, if this occurs we will not exit and try to parse
               the output. *)
            let status := -1 in
            let '(status, fields) :=
              match err with
              | ExitError (Some ws) =>
                  let status := ExitStatus ws in
                  (status, <["result_code" := VInt status]> fields)
              | _ => (status, fields)
              end in
            if negb (status =? 1) then
              (* Combine go err + stderr output *)
              let out := TrimSpace out in
              (if (0 <? String.length out)%nat
               then AddError (fmtErrorf "host %s: %s, %s"
                                [argString u; argString out; argError err])
               else AddError (fmtErrorf "host %s: %s"
                                [argString u; argError err]));;
              let fields := <["result_code" := VInt 2]> fields in
              AddFields "ping" fields tags
            else parseAndReport u out fields tags
        end
    end).

Definition hostPinger : HostPinger := fun binary timeout args =>
  logEvent (EvLookPath binary);;
  let '(bin, err) := LookPath binary in
  match err with
  | Some _ => mret ("", err)
  | None =>
      let d := wrap64 (Second * f64.toInt64 (f64.add timeout (f64.ofInt 5))) in
      logEvent (EvCombinedOutputTimeout bin args d);;
      mret (CombinedOutputTimeout bin args d)
  end.

(** The plugin as [init] registers it. *)
Definition defaultPing : Ping := {|
  pingHost := hostPinger;
  PingInterval := f64.ofInt 1;
  Count := 1;
  Timeout := f64.ofInt 1;
  Deadline := 10;
  Interface := "";
  Urls := [];
  Binary := "ping";
  Arguments := []
|}.

End Plugin.


(** ** Inputs and reference values used in the statements *)

Definition sampleOutput : string :=
  "64 bytes from 1.2.3.4: icmp_seq=0 ttl=54 time=52.172 ms" +:+ newline +:+
  "2 packets transmitted, 2 packets received, 0.0% packet loss" +:+ newline +:+
  "round-trip min/avg/max/stddev = 34.843/43.508/52.172/8.664 ms".

(** The float64 numbers written 34.843, 43.508, 52.172 and 8.664. *)
Definition f34_843 : float64 := S754_finite false 4903716306764694 (-47).
Definition f43_508 : float64 := S754_finite false 6123206643363611 (-47).
Definition f52_172 : float64 := S754_finite false 7342556242474172 (-47).
Definition f8_664 : float64 := S754_finite false 4877398396442247 (-49).

(** A line is read as the packet-statistics summary when it holds both
    words. *)
Definition isSummaryLine (line : string) : bool :=
  Contains line "transmitted" && Contains line "received".

(** The exit status [pingToURL] reads off the error of [pingHost]. *)
Definition statusOf (err : error) : Z :=
  match err with
  | ExitError (Some ws) => ExitStatus ws
  | _ => -1
  end.

(** The error [pingToURL] hands to the accumulator when the binary failed. *)
Definition hostError (u out : string) (err : error) : error :=
  if (0 <? String.length (TrimSpace out))%nat
  then fmtErrorf "host %s: %s, %s"
         [argString u; argString (TrimSpace out); argError err]
  else fmtErrorf "host %s: %s" [argString u; argError err].

(** The field set of a successful probe, key by key: the result code, the
    two counts and the loss always, each of ttl, min, avg, max and stddev
    only when it is not negative. *)
Definition statsField (code trans rec ttl : Z) (min avg max stddev : float64)
    (key : string) : option value :=
  if decide (key = "result_code") then Some (VInt code)
  else if decide (key = "packets_transmitted") then Some (VInt trans)
  else if decide (key = "packets_received") then Some (VInt rec)
  else if decide (key = "percent_packet_loss")
    then Some (VFloat (packetLoss trans rec))
  else if decide (key = "ttl")
    then (if 0 <=? ttl then Some (VInt ttl) else None)
  else if decide (key = "minimum_response_ms")
    then (if f64.ge0 min then Some (VFloat min) else None)
  else if decide (key = "average_response_ms")
    then (if f64.ge0 avg then Some (VFloat avg) else None)
  else if decide (key = "maximum_response_ms")
    then (if f64.ge0 max then Some (VFloat max) else None)
  else if decide (key = "standard_deviation_ms")
    then (if f64.ge0 stddev then Some (VFloat stddev) else None)
  else None.

(** The world in which [pingToURL] calls [p.pingHost]: the lookup and the
    call are in the log. *)
Definition atCall (GOOS : string) (FormatFloat : float64 -> string)
    (p : Ping) (u : string) (w : World) : World :=
  logged (logged w [EvLookupHost u])
         [EvPingHost (Binary p) (totalTimeout p) (args FormatFloat p u GOOS)].

(** The field set a failed probe is reported with. *)
Definition failureMetric (u : string) (code : Z) : metric :=
  {| measurement := "ping";
     fields := {[ "result_code" := VInt code ]};
     tags := {[ "url" := u ]} |}.

(** A host pinger for tests: it returns a fixed output and error (the
    mocks of ping_test.go). *)
Definition mockHostPinger (out : string) (err : option error) : HostPinger :=
  fun _ _ _ => mret (out, err).

Definition mockPing (out : string) (err : option error) : Ping :=
  {| pingHost := mockHostPinger out err;
     PingInterval := f64.ofInt 1; Count := 1; Timeout := f64.ofInt 1;
     Deadline := 10; Interface := ""; Urls := ["example.org"];
     Binary := "ping"; Arguments := [] |}.

Definition lookupOk (host : string) : list string * option error :=
  (["93.184.216.34"], None).

Definition lookupFails (host : string) : list string * option error :=
  ([], Some (otherError "lookup: no such host")).

(** A stand-in for [strconv.FormatFloat] where its digits do not matter. *)
Definition formatAny (f : float64) : string := "1".

Definition world0 : World :=
  {| accErrors := []; accMetrics := []; wg := 1; trace := [] |}.

Definition exited (code : Z) : error :=
  ExitError (Some {| ExitStatus := code |}).

(** Collaborators of [hostPinger] for tests: every binary is found under
    /bin, and running it prints the sample output. *)
Definition lookPathOk (file : string) : string * option error :=
  ("/bin/" +:+ file, None).

Definition runsSample (bin : string) (a : list string) (d : Z)
  : string * option error := (sampleOutput, None).

(** *** Tokens as the specification words them *)

(** The whitespace-delimited tokens of a line: the maximal runs of bytes
    that are not white space. *)
Fixpoint whitespaceTokens (s : string) : list string :=
  match s with
  | EmptyString => []
  | String c s' =>
      if isSpace c then whitespaceTokens s'
      else
        match s' with
        | EmptyString => [String c EmptyString]
        | String d _ =>
            if isSpace d then String c EmptyString :: whitespaceTokens s'
            else match whitespaceTokens s' with
                 | tok :: toks => String c tok :: toks
                 | [] => [String c EmptyString]
                 end
        end
  end.

(** The words of the line are separated by one space each: no other white
    space, no space at either end, no two spaces in a row. *)
Fixpoint singleSpaced (s : string) : bool :=
  match s with
  | EmptyString => false
  | String c s' =>
      negb (isSpace c) &&
      match s' with
      | EmptyString => true
      | String d s'' =>
          if Ascii.eqb d " " then singleSpaced s'' else singleSpaced s'
      end
  end.

(** *** The command builder as the specification words it *)

Inductive osFamily := Darwin | BSD | Linux | UnknownOS.

Definition familyOf (system : string) : osFamily :=
  if String.eqb system "darwin" then Darwin
  else if String.eqb system "freebsd" || String.eqb system "netbsd"
          || String.eqb system "openbsd" then BSD
  else if String.eqb system "linux" then Linux
  else UnknownOS.

Section BuildArgs.
Variable FormatFloat : float64 -> string.
Variable config : Ping.

Definition baseFlags : list string :=
  ["-c"; Itoa (Count config); "-n"; "-s"; "16"].

Definition intervalFlag : list string :=
  if f64.gt0 (PingInterval config)
  then ["-i"; FormatFloat (PingInterval config)] else [].

(** milliseconds on the BSD family and Darwin, seconds otherwise *)
Definition timeoutFlag (fam : osFamily) : list string :=
  if f64.gt0 (Timeout config) then
    match fam with
    | Darwin | BSD =>
        ["-W"; FormatFloat (f64.mul (Timeout config) (f64.ofInt 1000))]
    | Linux | UnknownOS => ["-W"; FormatFloat (Timeout config)]
    end
  else [].

Definition deadlineFlag (fam : osFamily) : list string :=
  if 0 <? Deadline config then
    match fam with
    | Darwin | BSD => ["-t"; Itoa (Deadline config)]
    | Linux | UnknownOS => ["-w"; Itoa (Deadline config)]
    end
  else [].

Definition interfaceFlag (fam : osFamily) : list string :=
  match Interface config with
  | EmptyString => []
  | _ =>
      match fam with
      | Linux | Darwin => ["-I"; Interface config]
      | BSD => ["-s"; Interface config]
      | UnknownOS => ["-i"; Interface config]
      end
  end.

(** [buildArgs(target, osFamily, config)] of the specification. *)
Definition buildArgs (target : string) (fam : osFamily) : list string :=
  match Arguments config with
  | _ :: _ => Arguments config ++ [target]
  | [] =>
      baseFlags ++ intervalFlag ++ timeoutFlag fam ++ deadlineFlag fam ++
      interfaceFlag fam ++ [target]
  end.

End BuildArgs.

(** *** Shapes of lines and outcomes of the call, for the statements *)

(** A text without the byte [ch]. *)
Definition lacks (ch : ascii) (s : string) : Prop :=
  Contains s (String ch EmptyString) = false.

(** A line of none of the three shapes. *)
Definition unrecognized (line : string) : bool :=
  negb (Contains line "ttl=") && negb (isSummaryLine line) &&
  negb (Contains line "min/avg/max").

(** The shape the parser relies on: a line with "ttl=" has digits after
    one of its "ttl="; a summary line has a ", "; a round-trip line has a
    fourth piece between spaces, made of at least three pieces between
    slashes. *)
Definition wellShaped (line : string) : bool :=
  implb (Contains line "ttl=")
        (match ttlLine_FindStringSubmatch line with
         | [] => false
         | _ :: _ => true
         end) &&
  implb (isSummaryLine line) (Contains line ", ") &&
  implb (Contains line "min/avg/max")
        (match Split line " " !! 3%nat with
         | Some tok => (3 <=? length (Split tok "/"))%nat
         | None => false
         end).

(** The error of [pingHost] lets [pingToURL] go on to the parser: there is
    none, or it is an exit with status 1. *)
Definition goesOnToParse (err : option error) : bool :=
  match err with
  | None => true
  | Some e => statusOf e =? 1
  end.

(** The result code the field set holds when the parser is called. *)
Definition codeBeforeParse (err : option error) : Z :=
  match err with
  | None => 0
  | Some _ => 1
  end.

Section Probe.
Variable GOOS : string.
Variable LookupHost : string -> list string * option error.
Variable FormatFloat : float64 -> string.

(** [pingToURL] without its deferred [Done], by cases on what the lookup
    and [pingHost] return. *)
Definition probe (p : Ping) (u : string) : M unit := fun w =>
  match LookupHost u with
  | (_, Some e) =>
      (Ret tt,
       reported (failed (logged w [EvLookupHost u]) e) (failureMetric u 1))
  | (_, None) =>
      match pingHost p (Binary p) (totalTimeout p)
                     (args FormatFloat p u GOOS)
                     (atCall GOOS FormatFloat p u w) with
      | (Panic msg, w') => (Panic msg, w')
      | (Ret (out, None), w') =>
          parseAndReport u out {[ "result_code" := VInt 0 ]}
                         {[ "url" := u ]} w'
      | (Ret (out, Some e), w') =>
          if statusOf e =? 1
          then parseAndReport u out {[ "result_code" := VInt 1 ]}
                              {[ "url" := u ]} w'
          else (Ret tt,
                reported (failed w' (hostError u out e)) (failureMetric u 2))
      end
  end.

End Probe.

(** A [LookPath] that finds nothing. *)
Definition lookPathFails (file : string) : string * option error :=
  ("", Some (otherError "executable file not found in $PATH")).

(** * Properties *)

(** Unfolding of the two monads. *)
Ltac go_simpl :=
  unfold mbind, mret, go_bind, go_ret, M_bind, M_ret, liftGo in *;
  cbn beta iota in *.


(** ** The output parser *)

(** C5: on the sample output (a reply line with ttl=54, the summary line
    with 2 transmitted and 2 received, the round-trip line
    34.843/43.508/52.172/8.664) [processPingOutput] returns transmitted 2,
    received 2, ttl 54, and as min, avg, max and stddev the float64 numbers
    nearest to 34.843, 43.508, 52.172 and 8.664, with a nil error; the loss
    the caller computes from 2 and 2 is 0.0. *)
Theorem processPingOutput_sample :
  processPingOutput sampleOutput =
    Ret (2, 2, 54, f34_843, f43_508, f52_172, f8_664, None) /\
  f64.nearest f34_843 34843 1000 = true /\
  f64.nearest f43_508 43508 1000 = true /\
  f64.nearest f52_172 52172 1000 = true /\
  f64.nearest f8_664 8664 1000 = true /\
  packetLoss 2 2 = S754_zero false.
Proof. repeat split; vm_compute; reflexivity. Qed.

(** C2: an output without any summary line does not always end in an error.
    A lone reply line with [ttl=54], and a lone round-trip line, have no
    line holding both "transmitted" and "received", and still
    [processPingOutput] returns a nil error (with both counts 0): the
    results of [getTTL] and [checkRoundTripTimeStats] overwrite the initial
    error. *)
Theorem processPingOutput_without_summary_line :
  let ttlOnly := "64 bytes from 1.2.3.4: icmp_seq=0 ttl=54 time=52.172 ms" in
  let rttOnly :=
    "round-trip min/avg/max/stddev = 34.843/43.508/52.172/8.664 ms" in
  Forall (fun line => isSummaryLine line = false) (Split ttlOnly newline) /\
  Forall (fun line => isSummaryLine line = false) (Split rttOnly newline) /\
  processPingOutput ttlOnly =
    Ret (0, 0, 54, minus1, minus1, minus1, minus1, None) /\
  processPingOutput rttOnly =
    Ret (0, 0, -1, f34_843, f43_508, f52_172, f8_664, None).
Proof.
  cbv zeta. repeat split.
  - vm_compute. repeat constructor.
  - vm_compute. repeat constructor.
Qed.

(** What does hold: lines of none of the three shapes leave every variable
    of the loop as it is, the error included. *)
Lemma processLines_unrecognized lines :
  forall trans recv ttl min avg max stddev err,
  Forall (fun line => Contains line "ttl=" = false /\
                      isSummaryLine line = false /\
                      Contains line "min/avg/max" = false) lines ->
  processLines lines trans recv ttl min avg max stddev err =
    Ret (trans, recv, ttl, min, avg, max, stddev, err).
Proof.
  induction lines as [|line lines IH]; intros * Hall; [reflexivity|].
  inversion Hall as [|? ? (Httl & Hsum & Hrtt) Hrest]; subst.
  cbn [processLines]. unfold isSummaryLine in Hsum.
  rewrite Httl, Bool.andb_false_r, Hsum, Hrtt. apply IH, Hrest.
Qed.

Lemma processPingOutput_unrecognized out :
  Forall (fun line => Contains line "ttl=" = false /\
                      isSummaryLine line = false /\
                      Contains line "min/avg/max" = false)
         (Split out newline) ->
  processPingOutput out =
    Ret (0, 0, -1, minus1, minus1, minus1, minus1,
         Some (errorsNew "Fatal error processing ping output")).
Proof. intros Hall. apply processLines_unrecognized, Hall. Qed.

(** *** Where the transmitted count comes from *)

(** A successful [getPacketStats] does not depend on the counts passed in. *)
Lemma getPacketStats_success line t r t' r' trans recv :
  getPacketStats line t r = Ret (trans, recv, None) ->
  getPacketStats line t' r' = Ret (trans, recv, None).
Proof.
  unfold getPacketStats.
  destruct (index (Split line ", ") 0) as [s0|]; go_simpl; [|discriminate].
  destruct (index (Split s0 " ") 0) as [t0|]; go_simpl; [|discriminate].
  destruct (Atoi t0) as [n [e|]]; [discriminate|].
  destruct (index (Split line ", ") 1) as [s1|]; go_simpl; [|discriminate].
  destruct (index (Split s1 " ") 0) as [t1|]; go_simpl; [|discriminate].
  destruct (Atoi t1) as [m e]. intros H. injection H as <- <- ->. reflexivity.
Qed.

(** The counts held by the loop are the initial zeros or were read from a
    summary line among the lines already seen. *)
Definition countsFrom (all : list string) (trans recv : Z) : Prop :=
  (trans = 0 /\ recv = 0) \/
  exists line, line ∈ all /\ isSummaryLine line = true /\
               getPacketStats line 0 0 = Ret (trans, recv, None).

Lemma processLines_counts all lines :
  forall trans recv ttl min avg max stddev err
         trans' recv' ttl' min' avg' max' stddev',
  (forall line, line ∈ lines -> line ∈ all) ->
  countsFrom all trans recv ->
  processLines lines trans recv ttl min avg max stddev err =
    Ret (trans', recv', ttl', min', avg', max', stddev', None) ->
  countsFrom all trans' recv'.
Proof.
  induction lines as [|line lines IH]; intros * Hsub Hinv Hrun.
  - simpl in Hrun. injection Hrun as <- <- _ _ _ _ _ _. exact Hinv.
  - assert (Hrest : forall l, l ∈ lines -> l ∈ all)
      by (intros l Hl; apply Hsub; right; exact Hl).
    simpl in Hrun.
    destruct ((ttl =? -1) && Contains line "ttl=").
    { destruct (getTTL line) as [[ttl1 err1]|]; go_simpl; [|discriminate].
      eapply IH; eauto. }
    destruct (Contains line "transmitted" && Contains line "received") eqn:Hsum.
    { destruct (getPacketStats line trans recv) as [[[t1 r1] [e|]]|] eqn:Hstats;
        go_simpl; try discriminate.
      eapply IH; [exact Hrest| |exact Hrun].
      right. exists line. split; [apply Hsub; left|split; [exact Hsum|]].
      eapply getPacketStats_success; exact Hstats. }
    destruct (Contains line "min/avg/max").
    { destruct (checkRoundTripTimeStats line min avg max stddev)
        as [[[[[mn av] mx] sd] [e|]]|]; go_simpl; try discriminate.
      eapply IH; eauto. }
    eapply IH; eauto.
Qed.

(** C4, as the code has it: when [processPingOutput] returns a nil error,
    the two counts are the initial zeros or the two integers read at the
    head of a summary line of the output; nothing bounds the transmitted
    count from below. *)
Theorem processPingOutput_counts out trans recv ttl min avg max stddev :
  processPingOutput out =
    Ret (trans, recv, ttl, min, avg, max, stddev, None) ->
  (trans = 0 /\ recv = 0) \/
  exists line, line ∈ Split out newline /\ isSummaryLine line = true /\
               getPacketStats line 0 0 = Ret (trans, recv, None).
Proof.
  unfold processPingOutput. intros Hrun.
  eapply (processLines_counts (Split out newline)); [|left; split; reflexivity|exact Hrun].
  auto.
Qed.

Lemma processPingOutput_counts_witness :
  processPingOutput "3 packets transmitted, 0 packets received" =
    Ret (3, 0, -1, minus1, minus1, minus1, minus1, None) /\
  ((3 = 0 /\ 0 = 0) \/
   exists line,
     line ∈ Split "3 packets transmitted, 0 packets received" newline /\
     isSummaryLine line = true /\
     getPacketStats line 0 0 = Ret (3, 0, None)).
Proof.
  split; [vm_compute; reflexivity|].
  apply (processPingOutput_counts _ 3 0 (-1) minus1 minus1 minus1 minus1).
  vm_compute; reflexivity.
Defined.

(** C4, as stated, fails: the summary line of a run that sent nothing
    parses with a nil error and a transmitted count of 0, and the loss the
    caller then computes is 0/0, a NaN. *)
Lemma processPingOutput_zero_transmitted :
  processPingOutput
    "0 packets transmitted, 0 packets received, 0.0% packet loss" =
    Ret (0, 0, -1, minus1, minus1, minus1, minus1, None) /\
  packetLoss 0 0 = S754_nan /\
  ~ (forall out trans recv ttl min avg max stddev,
       processPingOutput out =
         Ret (trans, recv, ttl, min, avg, max, stddev, None) ->
       1 <= trans).
Proof.
  split; [vm_compute; reflexivity|split; [vm_compute; reflexivity|]].
  intros H.
  specialize (H "0 packets transmitted, 0 packets received, 0.0% packet loss"
                0 0 (-1) minus1 minus1 minus1 minus1).
  assert (1 <= 0) by (apply H; vm_compute; reflexivity). lia.
Qed.

(** *** The round-trip line *)

(** The piece at position [j] is the first one [ParseFloat] refuses: the
    entry asked about sits at [j] or later, the earlier ones being
    accepted. *)
Ltac refused j H :=
  exists j; do 6 eexists;
  split;
  [ repeat match goal with
           | i : nat, Hi : _ !! ?i = Some _, Hbad : snd _ <> None |- _ =>
               is_var i; destruct i as [|i];
               [ cbn in Hi; injection Hi as <-;
                 exfalso; apply Hbad;
                 match goal with E : ParseFloat _ = _ |- _ => rewrite E; reflexivity end
               | cbn in Hi ]
           end; lia
  | split; [reflexivity | rewrite H; split; reflexivity] ].

(** Every piece is accepted, so none is refused. *)
Ltac accepted Hi Hbad :=
  cbn in Hi; try discriminate; injection Hi as <-;
  apply Hbad;
  match goal with E : ParseFloat _ = _ |- _ => rewrite E; reflexivity end.


(** C7, as the code has it: take a line whose fourth piece, cutting at each
    single space ([strings.Split(line, " ")[3]]), is [tok], and cut [tok]
    at each "/".  With three pieces that [ParseFloat] accepts,
    [checkRoundTripTimeStats] returns their values in order as min, avg and
    max, and stddev as it came in (from [processPingOutput]: the sentinel
    -1.0).  With four such pieces the fourth is returned as stddev.  With
    three or four pieces of which one is refused by [ParseFloat], the result
    carries the error of the first refused piece.  (On a line whose words
    are separated by one space each, the fourth piece is the fourth
    whitespace-delimited token: [Split_space_tokens].) *)
Theorem checkRoundTripTimeStats_values line tok min0 avg0 max0 stddev0 :
  Split line " " !! 3%nat = Some tok ->
  (forall a b c x y z,
     Split tok "/" = [a; b; c] ->
     ParseFloat a = (x, None) -> ParseFloat b = (y, None) ->
     ParseFloat c = (z, None) ->
     checkRoundTripTimeStats line min0 avg0 max0 stddev0 =
       Ret (x, y, z, stddev0, None) /\
     checkRoundTripTimeStats line minus1 minus1 minus1 minus1 =
       Ret (x, y, z, minus1, None)) /\
  (forall a b c d x y z s,
     Split tok "/" = [a; b; c; d] ->
     ParseFloat a = (x, None) -> ParseFloat b = (y, None) ->
     ParseFloat c = (z, None) -> ParseFloat d = (s, None) ->
     checkRoundTripTimeStats line min0 avg0 max0 stddev0 =
       Ret (x, y, z, s, None)) /\
  (forall data i bad,
     Split tok "/" = data ->
     (length data = 3 \/ length data = 4)%nat ->
     data !! i = Some bad -> snd (ParseFloat bad) <> None ->
     exists j piece e mn av mx sd,
       (j <= i)%nat /\ data !! j = Some piece /\
       snd (ParseFloat piece) = Some e /\
       checkRoundTripTimeStats line min0 avg0 max0 stddev0 =
         Ret (mn, av, mx, sd, Some e)).
Proof.
  intros Htok.
  assert (Hidx : index (Split line " ") 3 = Ret tok)
    by (unfold index; rewrite Htok; reflexivity).
  split; [|split].
  - intros a b c x y z Hdata Ha Hb Hc.
    unfold checkRoundTripTimeStats. rewrite Hidx. go_simpl.
    rewrite Hdata. cbn. rewrite Ha, Hb, Hc. split; reflexivity.
  - intros a b c d x y z s Hdata Ha Hb Hc Hd.
    unfold checkRoundTripTimeStats. rewrite Hidx. go_simpl.
    rewrite Hdata. cbn. rewrite Ha, Hb, Hc, Hd. reflexivity.
  - intros data i bad Hdata Hlen Hi Hbad.
    unfold checkRoundTripTimeStats. rewrite Hidx. go_simpl. rewrite Hdata.
    destruct data as [|a [|b [|c [|d [|? ?]]]]];
      try (cbn in Hlen; destruct Hlen; discriminate); cbn.
    + destruct (ParseFloat a) as [x [ea|]] eqn:Ha; [refused 0%nat Ha|].
      destruct (ParseFloat b) as [y [eb|]] eqn:Hb; [refused 1%nat Hb|].
      destruct (ParseFloat c) as [z [ec|]] eqn:Hc; [refused 2%nat Hc|].
      exfalso. destruct i as [|[|[|i]]]; accepted Hi Hbad.
    + destruct (ParseFloat a) as [x [ea|]] eqn:Ha; [refused 0%nat Ha|].
      destruct (ParseFloat b) as [y [eb|]] eqn:Hb; [refused 1%nat Hb|].
      destruct (ParseFloat c) as [z [ec|]] eqn:Hc; [refused 2%nat Hc|].
      destruct (ParseFloat d) as [s [ed|]] eqn:Hd; [refused 3%nat Hd|].
      exfalso. destruct i as [|[|[|[|i]]]]; accepted Hi Hbad.
Qed.

Lemma checkRoundTripTimeStats_values_witness :
  let line := "rtt min/avg/max = 1.5/2.25/3 ms" in
  Split line " " !! 3%nat = Some "1.5/2.25/3" /\
  checkRoundTripTimeStats line minus1 minus1 minus1 minus1 =
    Ret (fst (ParseFloat "1.5"), fst (ParseFloat "2.25"),
         fst (ParseFloat "3"), minus1, None).
Proof.
  split; [reflexivity|].
  destruct (checkRoundTripTimeStats_values
              "rtt min/avg/max = 1.5/2.25/3 ms" "1.5/2.25/3"
              minus1 minus1 minus1 minus1 eq_refl) as [H3 _].
  apply (H3 "1.5" "2.25" "3"); reflexivity.
Defined.

(** C7, as stated, fails: the fourth whitespace-delimited token is not what
    the code reads when the words are not separated by one space each.  On
    a round-trip line that starts with a space the fourth token is
    "1/2/3", three numbers, but the piece at index 3 is "=" and the result
    is the error of [ParseFloat "="]; on the same line written with tabs
    there is no piece at index 3 and the code panics. *)
Lemma checkRoundTripTimeStats_whitespace_token :
  let line := " rtt min/avg/max = 1/2/3 ms" in
  let tab := String (ascii_of_nat 9) EmptyString in
  let tabbed := "rtt" +:+ tab +:+ "min/avg/max" +:+ tab +:+ "=" +:+ tab +:+
                "1/2/3" +:+ tab +:+ "ms" in
  (Contains line "min/avg/max" = true /\
   whitespaceTokens line !! 3%nat = Some "1/2/3" /\
   Split "1/2/3" "/" = ["1"; "2"; "3"] /\
   snd (ParseFloat "1") = None /\ snd (ParseFloat "2") = None /\
   snd (ParseFloat "3") = None /\
   Split line " " !! 3%nat = Some "=" /\
   checkRoundTripTimeStats line minus1 minus1 minus1 minus1 =
     Ret (S754_zero false, minus1, minus1, minus1,
          Some (NumError "ParseFloat" "=" ErrSyntax)) /\
   processPingOutput line =
     Ret (0, 0, -1, S754_zero false, minus1, minus1, minus1,
          Some (NumError "ParseFloat" "=" ErrSyntax))) /\
  (Contains tabbed "min/avg/max" = true /\
   whitespaceTokens tabbed !! 3%nat = Some "1/2/3" /\
   checkRoundTripTimeStats tabbed minus1 minus1 minus1 minus1 =
     Panic "runtime error: index out of range") /\
  ~ (forall line tok a b c x y z,
       Contains line "min/avg/max" = true ->
       whitespaceTokens line !! 3%nat = Some tok ->
       Split tok "/" = [a; b; c] ->
       ParseFloat a = (x, None) -> ParseFloat b = (y, None) ->
       ParseFloat c = (z, None) ->
       checkRoundTripTimeStats line minus1 minus1 minus1 minus1 =
         Ret (x, y, z, minus1, None)).
Proof.
  cbv zeta. split; [|split].
  - repeat split; vm_compute; reflexivity.
  - repeat split; vm_compute; reflexivity.
  - intros H.
    specialize (H " rtt min/avg/max = 1/2/3 ms" "1/2/3" "1" "2" "3"
                  (fst (ParseFloat "1")) (fst (ParseFloat "2"))
                  (fst (ParseFloat "3"))).
    assert (Hrun : checkRoundTripTimeStats " rtt min/avg/max = 1/2/3 ms"
                     minus1 minus1 minus1 minus1 =
                   Ret (fst (ParseFloat "1"), fst (ParseFloat "2"),
                        fst (ParseFloat "3"), minus1, None))
      by (apply H; vm_compute; reflexivity).
    vm_compute in Hrun. discriminate Hrun.
Qed.

(** The pieces between spaces and the whitespace-delimited tokens. *)

Lemma HasPrefix_nil s : HasPrefix s "" = true.
Proof. destruct s; reflexivity. Qed.

Lemma not_space_neq c : isSpace c = false -> Ascii.eqb " " c = false.
Proof.
  intros H. destruct (Ascii.eqb_spec " " c) as [<-|]; [discriminate|reflexivity].
Qed.

Lemma Split_space_tokens_bounded n :
  forall s, (String.length s <= n)%nat -> singleSpaced s = true ->
            Split s " " = whitespaceTokens s.
Proof.
  unfold Split.
  induction n as [|n IH]; intros [|c s'] Hlen Hs; try discriminate;
    [cbn in Hlen; lia|].
  cbn [singleSpaced] in Hs. apply andb_prop in Hs as [Hc Hs].
  apply Bool.negb_true_iff in Hc.
  cbn [splitFrom whitespaceTokens HasPrefix]. rewrite Hc, (not_space_neq c Hc).
  destruct s' as [|d s'']; [reflexivity|].
  cbn in Hlen.
  destruct (Ascii.eqb_spec d " ") as [->|Hd].
  - change (isSpace " ") with true. cbv iota.
    cbn [splitFrom HasPrefix]. cbn [Ascii.eqb Bool.eqb String.length Nat.sub].
    rewrite (HasPrefix_nil s'').
    change (whitespaceTokens (String " " s'')) with (whitespaceTokens s'').
    rewrite (IH s'') by (try lia; exact Hs). reflexivity.
  - assert (Hd' : isSpace d = false).
    { cbn [singleSpaced] in Hs. apply andb_prop in Hs as [Hs _].
      apply Bool.negb_true_iff in Hs. exact Hs. }
    rewrite Hd'. rewrite (IH (String d s'')) by (cbn; try lia; exact Hs).
    reflexivity.
Qed.

(** On a line whose words are separated by one space each, the pieces
    between spaces are the whitespace-delimited tokens. *)
Lemma Split_space_tokens s :
  singleSpaced s = true -> Split s " " = whitespaceTokens s.
Proof. apply (Split_space_tokens_bounded (String.length s)). lia. Qed.

Example Split_space_tokens_rtt :
  let line := "round-trip min/avg/max/stddev = 34.843/43.508/52.172/8.664 ms" in
  singleSpaced line = true /\
  whitespaceTokens line !! 3%nat = Some "34.843/43.508/52.172/8.664" /\
  Split line " " !! 3%nat = Some "34.843/43.508/52.172/8.664".
Proof. repeat split. Qed.

(** One line that is read as the round-trip line, alone in the output: the
    counts and the ttl stay at their initial values. *)
Lemma processPingOutput_rtt_only line x y z s :
  Split line newline = [line] ->
  Contains line "ttl=" = false ->
  isSummaryLine line = false ->
  Contains line "min/avg/max" = true ->
  checkRoundTripTimeStats line minus1 minus1 minus1 minus1 =
    Ret (x, y, z, s, None) ->
  processPingOutput line = Ret (0, 0, -1, x, y, z, s, None).
Proof.
  intros Hone Httl Hsum Hrtt Hcheck.
  unfold processPingOutput. rewrite Hone. cbn [processLines].
  rewrite Httl, Bool.andb_false_r.
  unfold isSummaryLine in Hsum. rewrite Hsum, Hrtt, Hcheck. reflexivity.
Qed.

(** *** Lines that make the parser panic *)

(** A text in which the separator does not occur is one piece. *)
Lemma Split_without_sep s c sep :
  Contains s (String c sep) = false -> Split s (String c sep) = [s].
Proof.
  unfold Split. induction s as [|d s IH]; intros H; [reflexivity|].
  cbn [Contains] in H. apply Bool.orb_false_iff in H as [Hp Hc].
  cbn [splitFrom]. rewrite Hp, (IH Hc). reflexivity.
Qed.

(** C9: the parser indexes pieces that need not exist.
    - [getPacketStats] panics on every line without ", " whose first word is
      an integer: it reads the second piece of a one-piece list;
    - [getTTL] panics on every line in which the expression [ttl=(\d+)]
      finds nothing: it reads group 1 of a nil match;
    - [checkRoundTripTimeStats] panics on every line with fewer than four
      pieces between spaces: it reads the piece at index 3.
    Each case is reached from [processPingOutput]: on
    "2 packets transmitted received", on "ttl=x" and on
    "min/avg/max = 1/2/3". *)
Theorem parser_index_out_of_range :
  (forall line tok n trans recv,
     Contains line ", " = false ->
     Split line " " !! 0%nat = Some tok -> Atoi tok = (n, None) ->
     getPacketStats line trans recv =
       Panic "runtime error: index out of range") /\
  (forall line,
     ttlLine_FindStringSubmatch line = [] ->
     getTTL line = Panic "runtime error: index out of range") /\
  (forall line min avg max stddev,
     (length (Split line " ") < 4)%nat ->
     checkRoundTripTimeStats line min avg max stddev =
       Panic "runtime error: index out of range") /\
  (isSummaryLine "2 packets transmitted received" = true /\
   Contains "2 packets transmitted received" ", " = false /\
   processPingOutput "2 packets transmitted received" =
     Panic "runtime error: index out of range") /\
  (Contains "ttl=x" "ttl=" = true /\
   processPingOutput "ttl=x" = Panic "runtime error: index out of range") /\
  (Contains "min/avg/max = 1/2/3" "min/avg/max" = true /\
   processPingOutput "min/avg/max = 1/2/3" =
     Panic "runtime error: index out of range").
Proof.
  split; [|split; [|split; [|repeat split]]].
  - intros line tok n trans recv Hsep Htok Hn.
    unfold getPacketStats. rewrite (Split_without_sep _ _ _ Hsep).
    cbn [index lookup list_lookup]. go_simpl.
    unfold index. rewrite Htok. cbn. rewrite Hn. reflexivity.
  - intros line Hnil. unfold getTTL. rewrite Hnil. reflexivity.
  - intros line min avg max stddev Hlen.
    unfold checkRoundTripTimeStats, index.
    rewrite (proj2 (lookup_ge_None (Split line " ") 3)) by lia.
    reflexivity.
Qed.

Lemma parser_index_out_of_range_witness :
  (Contains "5 transmitted received" ", " = false /\
   Split "5 transmitted received" " " !! 0%nat = Some "5" /\
   Atoi "5" = (5, None) /\
   getPacketStats "5 transmitted received" 0 0 =
     Panic "runtime error: index out of range") /\
  (ttlLine_FindStringSubmatch "ttl=" = [] /\
   getTTL "ttl=" = Panic "runtime error: index out of range") /\
  ((length (Split "rtt min/avg/max" " ") < 4)%nat /\
   checkRoundTripTimeStats "rtt min/avg/max" minus1 minus1 minus1 minus1 =
     Panic "runtime error: index out of range").
Proof.
  destruct parser_index_out_of_range as (Hstats & Httl & Hrtt & _).
  split; [|split].
  - split; [reflexivity|split; [reflexivity|split; [reflexivity|]]].
    apply (Hstats "5 transmitted received" "5" 5); reflexivity.
  - split; [reflexivity|]. apply Httl. reflexivity.
  - split; [cbn; lia|]. apply Hrtt. cbn; lia.
Defined.

(** ** The probe runner *)

Ltac m_simpl :=
  unfold defer, wg_Done, wg_Add, logEvent, AddError, AddFields in *;
  go_simpl.

Lemma wg_Done_ok w : 0 < wg w -> (wg w + -1 <? 0) = false.
Proof. intros H. apply Z.ltb_ge. lia. Qed.

Section Runner.
Variable GOOS : string.
Variable LookupHost : string -> list string * option error.
Variable FormatFloat : float64 -> string.

(** C6: when the lookup of the target fails, [pingToURL] hands the lookup
    error to the accumulator, reports one field set that holds
    [result_code = 1] and nothing else, and returns; the call log shows the
    lookup and no call of [pingHost]. *)
Theorem pingToURL_resolution_failure p u w addrs err :
  LookupHost u = (addrs, Some err) ->
  0 < wg w ->
  pingToURL GOOS LookupHost FormatFloat p u w =
    (Ret tt,
     counted
       (reported (failed (logged w [EvLookupHost u]) err) (failureMetric u 1))
       (-1)).
Proof.
  intros Hlookup Hwg. unfold pingToURL. m_simpl.
  rewrite Hlookup. cbn. rewrite (wg_Done_ok w Hwg).
  unfold failureMetric. rewrite insert_singleton_eq. reflexivity.
Qed.

Lemma lookup_insert_if (b : bool) (k : string) (v : value)
    (m : gmap string value) (key : string) :
  (if b then <[k:=v]> m else m) !! key =
  if decide (k = key) then (if b then Some v else m !! key) else m !! key.
Proof. destruct b; [apply lookup_insert|]. case_decide; reflexivity. Qed.

(** The field set built after a successful parse, key by key. *)
Lemma success_fields code trans rec ttl min avg max stddev key :
  let fields : gmap string value := {[ "result_code" := VInt code ]} in
  let fields := <["packets_transmitted" := VInt trans]> fields in
  let fields := <["packets_received" := VInt rec]> fields in
  let fields :=
    <["percent_packet_loss" := VFloat (packetLoss trans rec)]> fields in
  let fields := if 0 <=? ttl then <["ttl" := VInt ttl]> fields else fields in
  let fields :=
    if f64.ge0 min
    then <["minimum_response_ms" := VFloat min]> fields else fields in
  let fields :=
    if f64.ge0 avg
    then <["average_response_ms" := VFloat avg]> fields else fields in
  let fields :=
    if f64.ge0 max
    then <["maximum_response_ms" := VFloat max]> fields else fields in
  let fields :=
    if f64.ge0 stddev
    then <["standard_deviation_ms" := VFloat stddev]> fields else fields in
  fields !! key = statsField code trans rec ttl min avg max stddev key.
Proof.
  cbv zeta. unfold statsField.
  rewrite !lookup_insert_if, !lookup_insert, lookup_singleton.
  repeat match goal with
         | |- context [decide (key = ?k)] =>
             destruct (decide (key = k)) as [->|?]
         end;
    repeat (case_decide; try congruence).
Qed.

(** What [parseAndReport] does on an output that parses with a nil error. *)
Lemma parseAndReport_success u out code w trans rec ttl min avg max stddev :
  processPingOutput out =
    Ret (trans, rec, ttl, min, avg, max, stddev, None) ->
  exists fs,
    parseAndReport u out {[ "result_code" := VInt code ]} {[ "url" := u ]} w =
      (Ret tt,
       reported (logged w [EvProcessPingOutput out])
         {| measurement := "ping"; fields := fs; tags := {[ "url" := u ]} |})
    /\ forall key,
         fs !! key = statsField code trans rec ttl min avg max stddev key.
Proof.
  intros Hparse. unfold parseAndReport. m_simpl. rewrite Hparse.
  eexists. split; [reflexivity|].
  intros key. apply success_fields.
Qed.

(** C1, as the code has it: the binary exits with status 1 and its output
    parses with a nil error.  The status has been stored as the result code
    before the parser runs and nothing resets it: the one field set reported
    holds [result_code = 1], the two counts, the loss and those of ttl, min,
    avg, max and stddev that are not negative; no error is reported. *)
Theorem pingToURL_exit_status_1
    p u w addrs out ws w' trans rec ttl min avg max stddev :
  LookupHost u = (addrs, None) ->
  pingHost p (Binary p) (totalTimeout p) (args FormatFloat p u GOOS)
           (atCall GOOS FormatFloat p u w) =
    (Ret (out, Some (ExitError (Some ws))), w') ->
  ExitStatus ws = 1 ->
  processPingOutput out =
    Ret (trans, rec, ttl, min, avg, max, stddev, None) ->
  0 < wg w' ->
  exists fs,
    pingToURL GOOS LookupHost FormatFloat p u w =
      (Ret tt,
       counted
         (reported (logged w' [EvProcessPingOutput out])
            {| measurement := "ping"; fields := fs;
               tags := {[ "url" := u ]} |})
         (-1))
    /\ forall key,
         fs !! key = statsField 1 trans rec ttl min avg max stddev key.
Proof.
  intros Hlookup Hcall Hstatus Hparse Hwg.
  destruct (parseAndReport_success u out 1 w' _ _ _ _ _ _ _ Hparse)
    as (fs & Hreport & Hfs).
  exists fs. split; [|exact Hfs].
  unfold pingToURL. m_simpl. rewrite Hlookup. cbn.
  unfold atCall in Hcall. rewrite Hcall. cbn.
  rewrite Hstatus. cbn. rewrite insert_singleton_eq, Hreport. cbn.
  rewrite (wg_Done_ok w' Hwg). reflexivity.
Qed.

(** C3, as the code has it: the binary fails and the status read off the
    error (-1 when there is none to read) is not 1.  Whatever the output is,
    [pingToURL] reports the failure to the accumulator and one field set
    that holds [result_code = 2] and nothing else; the parser is not
    called. *)
Theorem pingToURL_fatal_status p u w addrs out err w' :
  LookupHost u = (addrs, None) ->
  pingHost p (Binary p) (totalTimeout p) (args FormatFloat p u GOOS)
           (atCall GOOS FormatFloat p u w) =
    (Ret (out, Some err), w') ->
  statusOf err <> 1 ->
  0 < wg w' ->
  pingToURL GOOS LookupHost FormatFloat p u w =
    (Ret tt,
     counted (reported (failed w' (hostError u out err)) (failureMetric u 2))
             (-1)).
Proof.
  intros Hlookup Hcall Hstatus Hwg.
  unfold pingToURL. m_simpl. rewrite Hlookup. cbn.
  unfold atCall in Hcall. rewrite Hcall. cbn.
  assert (Hne : negb (statusOf err =? 1) = true)
    by (apply Bool.negb_true_iff, Z.eqb_neq; exact Hstatus).
  unfold failureMetric, hostError.
  destruct err as [text|fn num e|[ws|]|text|fmt a]; cbn in Hne |- *;
    try rewrite Hne; cbn;
    destruct (String.length (TrimSpace out)); cbn;
    rewrite (wg_Done_ok w' Hwg);
    rewrite ?insert_insert_eq, insert_singleton_eq; reflexivity.
Qed.

(** *** The wall-clock timeout *)

Variable LookPath : string -> string * option error.
Variable CombinedOutputTimeout :
  string -> list string -> Z -> string * option error.

Lemma defer_wg_Done_trace {A : Type} (body : M A) w :
  trace (snd (defer wg_Done body w)) = trace (snd (body w)).
Proof.
  unfold defer, wg_Done, wg_Add. destruct (body w) as [r w1]. cbn.
  destruct (wg w1 + -1 <? 0); reflexivity.
Qed.

(** From the call of the parser on, [pingToURL] only adds to the log. *)
Lemma parseAndReport_trace u out fs ts w :
  exists rest,
    trace (snd (parseAndReport u out fs ts w)) = trace w ++ rest.
Proof.
  unfold parseAndReport. m_simpl.
  destruct (processPingOutput out)
    as [[[[[[[[trans rec] ttl] mn] av] mx] sd] [e|]]|];
    cbn; eexists; reflexivity.
Qed.

(** C10: the host is resolved and [p.pingHost] is [hostPinger], which finds
    the binary.  [pingToURL] passes to [pingHost] the timeout [t]: 60 when
    [Arguments] is not empty, and otherwise
    [float64(Count)*Timeout + float64(Count-1)*PingInterval].  [hostPinger]
    then runs the command under the duration [time.Second *
    time.Duration(t+5)], the whole seconds of [t + 5]; under the override
    that is 65 seconds. *)
Theorem wall_clock_timeout p u w addrs bin :
  LookupHost u = (addrs, None) ->
  pingHost p = hostPinger LookPath CombinedOutputTimeout ->
  LookPath (Binary p) = (bin, None) ->
  let t :=
    match Arguments p with
    | [] => f64.add (f64.mul (f64.ofInt (Count p)) (Timeout p))
                    (f64.mul (f64.ofInt (wrap64 (Count p - 1)))
                             (PingInterval p))
    | _ :: _ => f64.ofInt 60
    end in
  let d := wrap64 (Second * f64.toInt64 (f64.add t (f64.ofInt 5))) in
  (exists rest,
     trace (snd (pingToURL GOOS LookupHost FormatFloat p u w)) =
       trace w ++
       [EvLookupHost u;
        EvPingHost (Binary p) t (args FormatFloat p u GOOS);
        EvLookPath (Binary p);
        EvCombinedOutputTimeout bin (args FormatFloat p u GOOS) d] ++ rest) /\
  (Arguments p <> [] -> d = 65 * Second).
Proof.
  intros Hlookup Hhost Hpath t d.
  assert (Ht : totalTimeout p = t).
  { unfold totalTimeout, t. destruct (Arguments p); reflexivity. }
  split.
  - unfold pingToURL. rewrite defer_wg_Done_trace. m_simpl.
    rewrite Hlookup. cbn. rewrite Hhost. unfold hostPinger. m_simpl.
    rewrite Hpath, Ht. cbn.
    match goal with
    | |- context [CombinedOutputTimeout ?b ?a ?x] =>
        destruct (CombinedOutputTimeout b a x) as [out [err|]]; cbn
    end.
    + destruct (negb (statusOf err =? 1)) eqn:Hstatus;
        destruct err as [text|fn num e|[ws|]|text|fmt a];
        cbn in Hstatus |- *; try discriminate; try rewrite Hstatus; cbn.
      all: try (destruct (String.length (TrimSpace out)); cbn;
                rewrite <- !app_assoc; cbn; eexists; reflexivity).
      all: match goal with
           | |- context [parseAndReport ?u ?o ?f ?ts ?w0] =>
               destruct (parseAndReport_trace u o f ts w0) as [rest Hrest];
               rewrite Hrest; cbn; rewrite <- !app_assoc; cbn;
               eexists; reflexivity
           end.
    + match goal with
      | |- context [parseAndReport ?u ?o ?f ?ts ?w0] =>
          destruct (parseAndReport_trace u o f ts w0) as [rest Hrest];
          rewrite Hrest; cbn; rewrite <- !app_assoc; cbn;
          eexists; reflexivity
      end.
  - intros Hargs. unfold d, t. destruct (Arguments p); [congruence|].
    vm_compute. reflexivity.
Qed.

End Runner.

Lemma pingToURL_resolution_failure_witness :
  lookupFails "example.org" = ([], Some (otherError "lookup: no such host")) /\
  0 < wg world0 /\
  pingToURL "linux" lookupFails formatAny (mockPing sampleOutput None)
            "example.org" world0 =
    (Ret tt,
     counted
       (reported
          (failed (logged world0 [EvLookupHost "example.org"])
                  (otherError "lookup: no such host"))
          (failureMetric "example.org" 1))
       (-1)).
Proof.
  split; [reflexivity|split; [reflexivity|]].
  apply (pingToURL_resolution_failure "linux" lookupFails formatAny
           (mockPing sampleOutput None) "example.org" world0 []
           (otherError "lookup: no such host"));
    reflexivity.
Defined.

Lemma pingToURL_exit_status_1_witness :
  let p := mockPing sampleOutput (Some (exited 1)) in
  let w' := atCall "linux" formatAny p "example.org" world0 in
  lookupOk "example.org" = (["93.184.216.34"], None) /\
  pingHost p (Binary p) (totalTimeout p)
           (args formatAny p "example.org" "linux") w' =
    (Ret (sampleOutput, Some (ExitError (Some {| ExitStatus := 1 |}))), w') /\
  processPingOutput sampleOutput =
    Ret (2, 2, 54, f34_843, f43_508, f52_172, f8_664, None) /\
  0 < wg w' /\
  exists fs,
    pingToURL "linux" lookupOk formatAny p "example.org" world0 =
      (Ret tt,
       counted
         (reported (logged w' [EvProcessPingOutput sampleOutput])
            {| measurement := "ping"; fields := fs;
               tags := {[ "url" := "example.org" ]} |})
         (-1))
    /\ forall key,
         fs !! key =
           statsField 1 2 2 54 f34_843 f43_508 f52_172 f8_664 key.
Proof.
  cbv zeta.
  split; [reflexivity|split; [reflexivity|split; [vm_compute; reflexivity|
    split; [reflexivity|]]]].
  apply (pingToURL_exit_status_1 "linux" lookupOk formatAny
           (mockPing sampleOutput (Some (exited 1))) "example.org" world0
           ["93.184.216.34"] sampleOutput {| ExitStatus := 1 |}).
  - reflexivity.
  - reflexivity.
  - reflexivity.
  - vm_compute; reflexivity.
  - reflexivity.
Defined.

(** C1, as stated, fails: the sample output with exit status 1 is reported
    with all its statistics and with [result_code = 1], not 0. *)
Lemma pingToURL_exit_status_1_not_success :
  exists w m,
    pingToURL "linux" lookupOk formatAny
              (mockPing sampleOutput (Some (exited 1))) "example.org" world0 =
      (Ret tt, w) /\
    accErrors w = [] /\
    accMetrics w = [m] /\
    fields m !! "packets_transmitted" = Some (VInt 2) /\
    fields m !! "packets_received" = Some (VInt 2) /\
    fields m !! "result_code" = Some (VInt 1) /\
    fields m !! "result_code" <> Some (VInt 0).
Proof.
  do 2 eexists.
  split; [vm_compute; reflexivity|].
  repeat split; try (vm_compute; reflexivity).
  vm_compute. discriminate.
Qed.

Lemma pingToURL_fatal_status_witness :
  let p := mockPing "ping: sendto: Network is unreachable" (Some (exited 2)) in
  let w' := atCall "linux" formatAny p "example.org" world0 in
  lookupOk "example.org" = (["93.184.216.34"], None) /\
  statusOf (exited 2) <> 1 /\
  0 < wg w' /\
  pingToURL "linux" lookupOk formatAny p "example.org" world0 =
    (Ret tt,
     counted
       (reported
          (failed w'
             (hostError "example.org" "ping: sendto: Network is unreachable"
                        (exited 2)))
          (failureMetric "example.org" 2))
       (-1)).
Proof.
  cbv zeta.
  split; [reflexivity|split; [discriminate|split; [reflexivity|]]].
  apply (pingToURL_fatal_status "linux" lookupOk formatAny
           (mockPing "ping: sendto: Network is unreachable" (Some (exited 2)))
           "example.org" world0 ["93.184.216.34"]).
  - reflexivity.
  - reflexivity.
  - discriminate.
  - reflexivity.
Defined.

(** C3, as stated, fails: with exit status 3 the result code reported is 2,
    not 3. *)
Lemma pingToURL_fatal_status_not_reported :
  statusOf (exited 3) = 3 /\
  exists w m,
    pingToURL "linux" lookupOk formatAny
              (mockPing "" (Some (exited 3))) "example.org" world0 =
      (Ret tt, w) /\
    accMetrics w = [m] /\
    fields m !! "result_code" = Some (VInt 2) /\
    fields m !! "result_code" <> Some (VInt 3).
Proof.
  split; [reflexivity|].
  do 2 eexists.
  split; [vm_compute; reflexivity|].
  repeat split; try (vm_compute; reflexivity).
  vm_compute. discriminate.
Qed.

Lemma wall_clock_timeout_witness :
  let p := defaultPing lookPathOk runsSample in
  let a := ["-c"; "1"; "-n"; "-s"; "16"; "-i"; "1"; "-W"; "1"; "-w"; "10";
            "example.org"] in
  lookupOk "example.org" = (["93.184.216.34"], None) /\
  pingHost p = hostPinger lookPathOk runsSample /\
  lookPathOk (Binary p) = ("/bin/ping", None) /\
  args formatAny p "example.org" "linux" = a /\
  exists rest,
    trace (snd (pingToURL "linux" lookupOk formatAny p "example.org" world0)) =
      trace world0 ++
      [EvLookupHost "example.org";
       EvPingHost "ping" (f64.ofInt 1) a;
       EvLookPath "ping";
       EvCombinedOutputTimeout "/bin/ping" a (6 * Second)] ++ rest.
Proof.
  cbv zeta.
  split; [reflexivity|split; [reflexivity|split; [reflexivity|
    split; [reflexivity|]]]].
  exact (proj1 (wall_clock_timeout "linux" lookupOk formatAny
                  lookPathOk runsSample (defaultPing lookPathOk runsSample)
                  "example.org" world0 ["93.184.216.34"] "/bin/ping"
                  eq_refl eq_refl eq_refl)).
Defined.

(** ** The command builder *)

(** C8: [args] is the command builder of the specification: the override
    list with the target appended when [Arguments] is not empty; otherwise
    "-c" count "-n" "-s" "16", then the interval flag, the timeout flag, the
    deadline flag and the interface flag, each only when set and with the
    letter and unit of the family of [system], then the target. *)
Theorem args_buildArgs FormatFloat p url system :
  args FormatFloat p url system =
    buildArgs FormatFloat p url (familyOf system).
Proof.
  unfold args, buildArgs, familyOf, baseFlags, intervalFlag, timeoutFlag,
    deadlineFlag, interfaceFlag.
  destruct (Arguments p) as [|a l]; [|reflexivity]. cbn [length Nat.ltb Nat.leb].
  destruct (f64.gt0 (PingInterval p)), (f64.gt0 (Timeout p)),
    (0 <? Deadline p), (Interface p) as [|c i],
    (String.eqb system "darwin"), (String.eqb system "freebsd"),
    (String.eqb system "netbsd"), (String.eqb system "openbsd"),
    (String.eqb system "linux"); reflexivity.
Qed.

(** The builder on the default configuration, with an interface set, for
    the families it tells apart. *)
Example args_by_family FormatFloat :
  let p := {| pingHost := mockHostPinger "" None;
              PingInterval := f64.ofInt 1; Count := 1;
              Timeout := f64.ofInt 1; Deadline := 10; Interface := "eth0";
              Urls := []; Binary := "ping"; Arguments := [] |} in
  let s := FormatFloat (f64.ofInt 1) in
  let ms := FormatFloat (f64.ofInt 1000) in
  args FormatFloat p "example.org" "linux" =
    ["-c"; "1"; "-n"; "-s"; "16"; "-i"; s; "-W"; s; "-w"; "10";
     "-I"; "eth0"; "example.org"] /\
  args FormatFloat p "example.org" "darwin" =
    ["-c"; "1"; "-n"; "-s"; "16"; "-i"; s; "-W"; ms; "-t"; "10";
     "-I"; "eth0"; "example.org"] /\
  args FormatFloat p "example.org" "freebsd" =
    ["-c"; "1"; "-n"; "-s"; "16"; "-i"; s; "-W"; ms; "-t"; "10";
     "-s"; "eth0"; "example.org"] /\
  args FormatFloat p "example.org" "plan9" =
    ["-c"; "1"; "-n"; "-s"; "16"; "-i"; s; "-W"; s; "-w"; "10";
     "-i"; "eth0"; "example.org"].
Proof. cbv zeta. repeat split. Qed.

Example args_override FormatFloat :
  let p := {| pingHost := mockHostPinger "" None;
              PingInterval := f64.ofInt 1; Count := 1;
              Timeout := f64.ofInt 1; Deadline := 10; Interface := "eth0";
              Urls := []; Binary := "ping"; Arguments := ["-c"; "3"] |} in
  args FormatFloat p "example.org" "linux" = ["-c"; "3"; "example.org"].
Proof. reflexivity. Qed.

(** * Further properties of the parser *)

(** ** Cutting texts *)

Lemma append_cons c (s t : string) : String c s +:+ t = String c (s +:+ t).
Proof. reflexivity. Qed.

Lemma append_nil (t : string) : "" +:+ t = t.
Proof. reflexivity. Qed.

Lemma append_assoc (s t u : string) : (s +:+ t) +:+ u = s +:+ t +:+ u.
Proof.
  induction s as [|c s IH]; [reflexivity|].
  rewrite !append_cons, IH. reflexivity.
Qed.

(** [Split] with a separator that is not empty returns at least one piece. *)
Lemma splitFrom_cons sep : forall s k, exists p ps, splitFrom sep k s = p :: ps.
Proof.
  induction s as [|c s IH]; intros k; cbn [splitFrom]; [eauto|].
  destruct k as [|k]; [|apply IH].
  destruct (HasPrefix (String c s) sep); [eauto|].
  destruct (IH 0%nat) as (p & ps & ->). eauto.
Qed.



Lemma lacks_cons ch c s :
  lacks ch (String c s) <-> Ascii.eqb ch c = false /\ lacks ch s.
Proof.
  unfold lacks. cbn [Contains HasPrefix]. rewrite HasPrefix_nil.
  rewrite Bool.orb_false_iff. destruct (Ascii.eqb ch c); tauto.
Qed.

Lemma lacks_nil ch : lacks ch "".
Proof. reflexivity. Qed.

(** Cutting at a one-byte separator: the text before its first occurrence
    is the first piece. *)
Lemma Split_byte ch x rest :
  lacks ch x ->
  Split (x +:+ String ch rest) (String ch "") =
    x :: Split rest (String ch "").
Proof.
  unfold Split. induction x as [|c x IH]; intros Hx.
  - rewrite append_nil. cbn. rewrite Ascii.eqb_refl, HasPrefix_nil.
    reflexivity.
  - apply lacks_cons in Hx as [Hc Hx].
    rewrite append_cons. cbn [splitFrom HasPrefix].
    rewrite Hc, (IH Hx). reflexivity.
Qed.

(** The first piece between spaces of a text that starts with a word and a
    space is that word. *)
Lemma first_word x rest :
  lacks " " x -> Split (x +:+ " " +:+ rest) " " !! 0%nat = Some x.
Proof.
  intros Hx. change (" " +:+ rest) with (String " " rest).
  rewrite (Split_byte " " x rest Hx). reflexivity.
Qed.

(** Cutting at ", ": the text before its first occurrence is the first
    piece. *)
Lemma Split_comma_space pre post :
  Contains pre ", " = false ->
  Split (pre +:+ ", " +:+ post) ", " = pre :: Split post ", ".
Proof.
  unfold Split. induction pre as [|c pre IH]; intros Hpre.
  - rewrite append_nil. change (", " +:+ post) with (String "," (String " " post)).
    cbn. rewrite HasPrefix_nil. reflexivity.
  - cbn [Contains] in Hpre. apply Bool.orb_false_iff in Hpre as [Hp Hc].
    rewrite append_cons. cbn [splitFrom].
    assert (Hp' : HasPrefix (String c (pre +:+ ", " +:+ post)) ", " = false).
    { cbn [HasPrefix] in Hp |- *. destruct (Ascii.eqb "," c); [|reflexivity].
      destruct pre as [|d pre]; [reflexivity|]. rewrite append_cons.
      cbn [HasPrefix] in Hp |- *. destruct (Ascii.eqb " " d); [|reflexivity].
      rewrite HasPrefix_nil in Hp. discriminate. }
    rewrite Hp', (IH Hc). reflexivity.
Qed.

(** A word followed by a space, cut at ", " and then at " ": the first
    piece of the first piece is the word. *)
Lemma first_word_of_first_piece y b :
  lacks " " y -> lacks "," y ->
  exists p ps, Split (y +:+ " " +:+ b) ", " = p :: ps /\
               Split p " " !! 0%nat = Some y.
Proof.
  unfold Split. induction y as [|c y IH]; intros Hs Hc.
  - rewrite append_nil. change (" " +:+ b) with (String " " b).
    cbn [splitFrom HasPrefix]. cbn [Ascii.eqb Bool.eqb].
    destruct (splitFrom_cons ", " b 0%nat) as (p & ps & ->).
    exists (String " " p), ps. split; [reflexivity|].
    cbn. rewrite HasPrefix_nil. reflexivity.
  - apply lacks_cons in Hs as [Hs1 Hs]. apply lacks_cons in Hc as [Hc1 Hc].
    destruct (IH Hs Hc) as (p & ps & Hcut & Hword).
    rewrite append_cons. cbn [splitFrom HasPrefix]. rewrite Hc1.
    rewrite Hcut.
    exists (String c p), ps. split; [reflexivity|].
    cbn [splitFrom HasPrefix]. rewrite Hs1.
    destruct (splitFrom " " 0 p) as [|w ws] eqn:Hp; [discriminate|].
    cbn in Hword |- *. congruence.
Qed.

Lemma Contains_word_space x a :
  lacks "," x -> Contains a ", " = false ->
  Contains (x +:+ " " +:+ a) ", " = false.
Proof.
  induction x as [|c x IH]; intros Hx Ha.
  - rewrite append_nil. change (" " +:+ a) with (String " " a).
    cbn [Contains HasPrefix]. cbn [Ascii.eqb Bool.eqb]. exact Ha.
  - apply lacks_cons in Hx as [Hc Hx].
    rewrite append_cons. cbn [Contains HasPrefix]. rewrite Hc. cbn [orb].
    apply IH; assumption.
Qed.

Lemma index_lookup {A : Type} (l : list A) (i : nat) (x : A) :
  l !! i = Some x -> index l i = Ret x.
Proof. intros H. unfold index. rewrite H. reflexivity. Qed.

(** ** Integers as [Atoi] reads them *)

Lemma parseUintLoop_digits ch : isDigit ch = false ->
  forall s n m, parseUintLoop s n = (m, None) -> lacks ch s.
Proof.
  intros Hch. induction s as [|c s IH]; intros n m H; [reflexivity|].
  cbn [parseUintLoop] in H.
  destruct (isDigit c) eqn:Hc; [|discriminate].
  destruct (n >=? maxUint64 / 10 + 1); [discriminate|].
  cbv zeta in H.
  destruct (n * 10 + digitVal c >? maxUint64); [discriminate|].
  apply lacks_cons. split; [|eapply IH; exact H].
  destruct (Ascii.eqb_spec ch c) as [->|]; congruence.
Qed.

Lemma parseUintLoop_range s : forall n m,
  parseUintLoop s n = (m, Some ErrRange) -> m = maxUint64.
Proof.
  induction s as [|c s IH]; intros n m H; [discriminate|].
  cbn [parseUintLoop] in H.
  destruct (isDigit c); [|discriminate].
  destruct (n >=? maxUint64 / 10 + 1); [congruence|].
  cbv zeta in H.
  destruct (n * 10 + digitVal c >? maxUint64); [congruence|].
  eapply IH; exact H.
Qed.

Lemma ParseUint_digits ch body m :
  isDigit ch = false -> ParseUint body = (m, None) -> lacks ch body.
Proof.
  intros Hch H. destruct body as [|c body]; [reflexivity|].
  eapply parseUintLoop_digits; [exact Hch|exact H].
Qed.

Lemma ParseInt_digits ch s n :
  isDigit ch = false -> ch <> "+"%char -> ch <> "-"%char ->
  ParseInt s = (n, None) -> lacks ch s.
Proof.
  intros Hch Hplus Hminus H. destruct s as [|c s]; [reflexivity|].
  unfold ParseInt in H.
  destruct (ParseUint (if Ascii.eqb c "+" || Ascii.eqb c "-" then s
                       else String c s)) as [un [[]|]] eqn:Hbody;
    try discriminate.
  - exfalso.
    assert (un = maxUint64).
    { destruct (if Ascii.eqb c "+" || Ascii.eqb c "-" then s else String c s);
        [discriminate|]. eapply parseUintLoop_range; exact Hbody. }
    subst un. destruct (Ascii.eqb c "-"); cbn in H; discriminate.
  - pose proof (ParseUint_digits ch _ _ Hch Hbody) as Hlacks.
    destruct (Ascii.eqb_spec c "+") as [->|Hp].
    + cbn in Hlacks. apply lacks_cons. split; [|exact Hlacks].
      destruct (Ascii.eqb_spec ch "+"); congruence.
    + destruct (Ascii.eqb_spec c "-") as [->|Hm].
      * cbn in Hlacks. apply lacks_cons. split; [|exact Hlacks].
        destruct (Ascii.eqb_spec ch "-"); congruence.
      * exact Hlacks.
Qed.

Lemma Atoi_digits ch s n :
  isDigit ch = false -> ch <> "+"%char -> ch <> "-"%char ->
  Atoi s = (n, None) -> lacks ch s.
Proof.
  intros Hch Hplus Hminus H. unfold Atoi in H.
  destruct (ParseInt s) as [m [e|]] eqn:Hp; [discriminate|].
  eapply ParseInt_digits; eauto.
Qed.

(** ** The summary line *)

(** X1: a line that starts with an integer and a space, and that after its
    first ", " has again an integer and a space, gives these two integers
    as the transmitted and the received count, whatever the words around
    them are ("2 packets transmitted, 2 packets received, ..." as well as
    "2 packets transmitted, 2 received, ...").  An integer is a text that
    [Atoi] reads without error. *)
Theorem getPacketStats_counts x a y b X Y trans recv :
  Atoi x = (X, None) -> Atoi y = (Y, None) ->
  Contains a ", " = false ->
  getPacketStats (x +:+ " " +:+ a +:+ ", " +:+ y +:+ " " +:+ b) trans recv =
    Ret (X, Y, None).
Proof.
  intros Hx Hy Ha.
  assert (Hxs : lacks " " x) by (eapply Atoi_digits; eauto; discriminate).
  assert (Hxc : lacks "," x) by (eapply Atoi_digits; eauto; discriminate).
  assert (Hys : lacks " " y) by (eapply Atoi_digits; eauto; discriminate).
  assert (Hyc : lacks "," y) by (eapply Atoi_digits; eauto; discriminate).
  destruct (first_word_of_first_piece y b Hys Hyc) as (p & ps & Hcut & Hword).
  unfold getPacketStats.
  replace (x +:+ " " +:+ a +:+ ", " +:+ y +:+ " " +:+ b)
    with ((x +:+ " " +:+ a) +:+ ", " +:+ y +:+ " " +:+ b)
    by (rewrite !append_assoc; reflexivity).
  rewrite (Split_comma_space _ _ (Contains_word_space x a Hxc Ha)), Hcut.
  rewrite (index_lookup (_ :: p :: ps) 0 _ eq_refl),
    (index_lookup (_ :: p :: ps) 1 p eq_refl). go_simpl.
  rewrite (index_lookup _ 0 _ (first_word x a Hxs)), Hx.
  rewrite (index_lookup _ 0 _ Hword), Hy. reflexivity.
Qed.

Lemma getPacketStats_counts_witness :
  Atoi "2" = (2, None) /\ Atoi "1" = (1, None) /\
  Contains "packets transmitted" ", " = false /\
  getPacketStats
    "2 packets transmitted, 1 received, 50% packet loss, time 1001ms" 0 0 =
    Ret (2, 1, None).
Proof.
  split; [reflexivity|split; [reflexivity|split; [reflexivity|]]].
  apply (getPacketStats_counts "2" "packets transmitted" "1"
           "received, 50% packet loss, time 1001ms" 2 1 0 0); reflexivity.
Defined.


Lemma unrecognized_spec line :
  unrecognized line = true ->
  Contains line "ttl=" = false /\ isSummaryLine line = false /\
  Contains line "min/avg/max" = false.
Proof.
  unfold unrecognized. intros H.
  apply andb_prop in H as [H H3]. apply andb_prop in H as [H1 H2].
  apply Bool.negb_true_iff in H1, H2, H3. auto.
Qed.

Lemma Forall_forallb {A : Type} (f : A -> bool) (l : list A) :
  forallb f l = true -> Forall (fun x => f x = true) l.
Proof.
  induction l as [|x l IH]; cbn; intros H; constructor;
    apply andb_prop in H as [Hx Hl]; auto.
Qed.

(** The loop reads over unrecognized lines. *)
Lemma processLines_skip l1 l2 :
  forall trans recv ttl min avg max stddev err,
  Forall (fun l => unrecognized l = true) l1 ->
  processLines (l1 ++ l2) trans recv ttl min avg max stddev err =
    processLines l2 trans recv ttl min avg max stddev err.
Proof.
  induction l1 as [|line l1 IH]; intros * Hall; [reflexivity|].
  inversion Hall as [|? ? Hline Hrest]; subst.
  apply unrecognized_spec in Hline as (Httl & Hsum & Hrtt).
  cbn [app processLines]. unfold isSummaryLine in Hsum.
  rewrite Httl, Bool.andb_false_r, Hsum, Hrtt. apply IH, Hrest.
Qed.

(** X2: when no line of the output holds "ttl=", both "transmitted" and
    "received", or "min/avg/max" (the empty output, an error message of
    ping), [processPingOutput] returns the error it started with, "Fatal
    error processing ping output", with the counts 0, the ttl -1 and the
    four times -1.0. *)
Theorem processPingOutput_nothing_recognized out :
  Forall (fun l => unrecognized l = true) (Split out newline) ->
  processPingOutput out =
    Ret (0, 0, -1, minus1, minus1, minus1, minus1,
         Some (errorsNew "Fatal error processing ping output")).
Proof.
  intros Hall. unfold processPingOutput.
  rewrite <- (app_nil_r (Split out newline)).
  rewrite processLines_skip by exact Hall. reflexivity.
Qed.

Lemma processPingOutput_nothing_recognized_witness :
  Forall (fun l => unrecognized l = true)
         (Split "ping: unknown host example.invalid" newline) /\
  processPingOutput "ping: unknown host example.invalid" =
    Ret (0, 0, -1, minus1, minus1, minus1, minus1,
         Some (errorsNew "Fatal error processing ping output")).
Proof.
  assert (H : Forall (fun l => unrecognized l = true)
                (Split "ping: unknown host example.invalid" newline)).
  { apply Forall_forallb. vm_compute. reflexivity. }
  split; [exact H|].
  apply (processPingOutput_nothing_recognized _ H).
Defined.

(** X3: a summary line whose first word is no integer ends the parse: when
    the lines before it are of none of the three shapes,
    [processPingOutput] returns the error of [Atoi] with what [Atoi] gave
    as the transmitted count and everything else at its initial value, and
    the lines after it are not read, not even one that would make the
    parser panic. *)
Theorem processPingOutput_summary_error out l1 line l2 piece tok n e :
  Split out newline = l1 ++ line :: l2 ->
  Forall (fun l => unrecognized l = true) l1 ->
  Contains line "ttl=" = false ->
  isSummaryLine line = true ->
  Split line ", " !! 0%nat = Some piece ->
  Split piece " " !! 0%nat = Some tok ->
  Atoi tok = (n, Some e) ->
  processPingOutput out =
    Ret (n, 0, -1, minus1, minus1, minus1, minus1, Some e).
Proof.
  intros Hout Hl1 Httl Hsum Hpiece Htok Hatoi.
  unfold processPingOutput. rewrite Hout, processLines_skip by exact Hl1.
  cbn [processLines]. rewrite Httl, Bool.andb_false_r.
  unfold isSummaryLine in Hsum. rewrite Hsum.
  unfold getPacketStats.
  rewrite (index_lookup _ _ _ Hpiece). go_simpl.
  rewrite (index_lookup _ _ _ Htok), Hatoi. reflexivity.
Qed.

Lemma processPingOutput_summary_error_witness :
  let out := "PING example.org" +:+ newline +:+
             "no packets transmitted, 0 received" +:+ newline +:+
             "ttl=" in
  Split out newline =
    ["PING example.org"] ++ "no packets transmitted, 0 received" :: ["ttl="] /\
  Forall (fun l => unrecognized l = true) ["PING example.org"] /\
  processPingOutput out =
    Ret (0, 0, -1, minus1, minus1, minus1, minus1,
         Some (NumError "Atoi" "no" ErrSyntax)).
Proof.
  cbv zeta.
  assert (H : Forall (fun l => unrecognized l = true) ["PING example.org"])
    by (apply Forall_forallb; vm_compute; reflexivity).
  split; [reflexivity|split; [exact H|]].
  apply (processPingOutput_summary_error _ ["PING example.org"]
           "no packets transmitted, 0 received" ["ttl="]
           "no packets transmitted" "no" 0 (NumError "Atoi" "no" ErrSyntax));
    try reflexivity; exact H.
Defined.

(** ** The ttl *)

Lemma isDigit_not_sign c :
  isDigit c = true -> Ascii.eqb c "+" = false /\ Ascii.eqb c "-" = false.
Proof.
  destruct c as [[] [] [] [] [] [] [] []]; cbv; intros H;
    try discriminate; split; reflexivity.
Qed.

Lemma digitVal_nonneg c : isDigit c = true -> 0 <= digitVal c.
Proof.
  unfold isDigit, digitVal. intros H. apply andb_prop in H as [H _].
  apply Nat.leb_le in H. lia.
Qed.

(** On a run of digits [ParseUint]'s loop never meets a syntax error, and
    its value stays within uint64. *)
Lemma parseUintLoop_takeDigits s : forall n,
  0 <= n <= maxUint64 ->
  exists m e, parseUintLoop (takeDigits s) n = (m, e) /\
              0 <= m <= maxUint64 /\ e <> Some ErrSyntax.
Proof.
  induction s as [|c s IH]; intros n Hn; cbn [takeDigits].
  - exists n, None. cbn. repeat split; try lia; discriminate.
  - destruct (isDigit c) eqn:Hc.
    + cbn [parseUintLoop]. rewrite Hc.
      destruct (n >=? maxUint64 / 10 + 1).
      { exists maxUint64, (Some ErrRange).
        repeat split; try discriminate; unfold maxUint64; lia. }
      cbv zeta. destruct (n * 10 + digitVal c >? maxUint64) eqn:Hover.
      { exists maxUint64, (Some ErrRange).
        repeat split; try discriminate; unfold maxUint64; lia. }
      apply IH. pose proof (digitVal_nonneg c Hc).
      rewrite Z.gtb_ltb in Hover. apply Z.ltb_ge in Hover. lia.
    + exists n, None. cbn. repeat split; try lia; discriminate.
Qed.

(** The value [Atoi] gives for a run of digits that is not empty: between
    0 and the largest int. *)
Lemma Atoi_takeDigits s v e :
  takeDigits s <> "" -> Atoi (takeDigits s) = (v, e) -> 0 <= v <= maxInt64.
Proof.
  intros Hne H. unfold Atoi, ParseInt in H.
  destruct (takeDigits s) as [|c rest] eqn:Hds; [congruence|].
  assert (Hc : isDigit c = true).
  { destruct s as [|c0 s0]; [discriminate|]. cbn [takeDigits] in Hds.
    destruct (isDigit c0) eqn:Hc0; [|discriminate]. congruence. }
  destruct (isDigit_not_sign c Hc) as [Hplus Hminus].
  rewrite Hplus, Hminus in H. cbn [orb negb andb] in H.
  destruct (parseUintLoop_takeDigits s 0) as (m & e' & Hloop & Hm & Hsyn);
    [unfold maxUint64; lia|].
  rewrite Hds in Hloop. unfold ParseUint in H. rewrite Hloop in H.
  destruct e' as [[]|]; [congruence| |].
  - destruct (m >=? 2 ^ 63) eqn:Hbig; injection H as <- _;
      [unfold maxInt64; lia|].
    rewrite Z.geb_leb in Hbig. apply Z.leb_gt in Hbig. unfold maxInt64. lia.
  - destruct (m >=? 2 ^ 63) eqn:Hbig; injection H as <- _;
      [unfold maxInt64; lia|].
    rewrite Z.geb_leb in Hbig. apply Z.leb_gt in Hbig. unfold maxInt64. lia.
Qed.

(** A match of [ttl=(\d+)] is the whole match and a run of digits that is
    not empty. *)
Lemma ttlLine_FindStringSubmatch_shape line :
  ttlLine_FindStringSubmatch line = [] \/
  exists s, takeDigits s <> "" /\
            ttlLine_FindStringSubmatch line =
              ["ttl=" +:+ takeDigits s; takeDigits s].
Proof.
  induction line as [|c line IH]; [left; reflexivity|].
  cbn [ttlLine_FindStringSubmatch].
  destruct (HasPrefix (String c line) "ttl=" &&
            negb (String.eqb (takeDigits (drop4 (String c line))) ""))
    eqn:Hm; [|exact IH].
  right. exists (drop4 (String c line)). split; [|reflexivity].
  apply andb_prop in Hm as [_ Hm]. apply Bool.negb_true_iff in Hm.
  intros Heq. rewrite Heq in Hm. discriminate.
Qed.

Lemma getTTL_range line ttl e :
  getTTL line = Ret (ttl, e) -> 0 <= ttl <= maxInt64.
Proof.
  unfold getTTL.
  destruct (ttlLine_FindStringSubmatch_shape line) as [->|(s & Hne & ->)];
    [discriminate|].
  cbn. intros H. injection H as H.
  eapply Atoi_takeDigits; eauto.
Qed.

(** Once the ttl is set the loop leaves it alone. *)
Lemma processLines_ttl_kept lines :
  forall trans recv ttl min avg max stddev err
         trans' recv' ttl' min' avg' max' stddev' err',
  ttl <> -1 ->
  processLines lines trans recv ttl min avg max stddev err =
    Ret (trans', recv', ttl', min', avg', max', stddev', err') ->
  ttl' = ttl.
Proof.
  induction lines as [|line lines IH]; intros * Hset Hrun.
  - cbn in Hrun. congruence.
  - cbn [processLines] in Hrun.
    apply Z.eqb_neq in Hset as Hset'. rewrite Hset' in Hrun. cbn [andb] in Hrun.
    destruct (Contains line "transmitted" && Contains line "received").
    { destruct (getPacketStats line trans recv) as [[[t1 r1] [e|]]|];
        go_simpl; try discriminate; [congruence|]. eapply IH; eauto. }
    destruct (Contains line "min/avg/max").
    { destruct (checkRoundTripTimeStats line min avg max stddev)
        as [[[[[mn av] mx] sd] [e|]]|]; go_simpl; try discriminate;
        [congruence|]. eapply IH; eauto. }
    eapply IH; eauto.
Qed.

Lemma processLines_ttl_first lines :
  forall trans recv min avg max stddev err
         trans' recv' ttl' min' avg' max' stddev' err',
  processLines lines trans recv (-1) min avg max stddev err =
    Ret (trans', recv', ttl', min', avg', max', stddev', err') ->
  ttl' = -1 \/
  (0 <= ttl' <= maxInt64 /\
   exists l1 line l2 e,
     lines = l1 ++ line :: l2 /\
     Forall (fun l => Contains l "ttl=" = false) l1 /\
     Contains line "ttl=" = true /\
     getTTL line = Ret (ttl', e)).
Proof.
  induction lines as [|line lines IH]; intros * Hrun.
  - cbn in Hrun. left. congruence.
  - cbn [processLines] in Hrun. rewrite Z.eqb_refl in Hrun.
    cbn [andb] in Hrun.
    destruct (Contains line "ttl=") eqn:Httl.
    { destruct (getTTL line) as [[t1 e1]|] eqn:Hget; go_simpl; [|discriminate].
      pose proof (getTTL_range _ _ _ Hget) as Hrange.
      assert (ttl' = t1) by (eapply processLines_ttl_kept; [|exact Hrun]; lia).
      subst t1. right. split; [exact Hrange|].
      exists [], line, lines, e1. repeat split; auto. }
    assert (Hnext : forall t r mn av mx sd er,
              processLines lines t r (-1) mn av mx sd er =
                Ret (trans', recv', ttl', min', avg', max', stddev', err') ->
              ttl' = -1 \/
              (0 <= ttl' <= maxInt64 /\
               exists l1 line0 l2 e,
                 line :: lines = l1 ++ line0 :: l2 /\
                 Forall (fun l => Contains l "ttl=" = false) l1 /\
                 Contains line0 "ttl=" = true /\
                 getTTL line0 = Ret (ttl', e))).
    { intros * Hrest. destruct (IH _ _ _ _ _ _ _ _ _ _ _ _ _ _ _ Hrest)
        as [?|(Hr & l1 & line0 & l2 & e & -> & Hall & Hc & Hg)]; [left; assumption|].
      right. split; [exact Hr|].
      exists (line :: l1), line0, l2, e. repeat split; auto. }
    destruct (Contains line "transmitted" && Contains line "received").
    { destruct (getPacketStats line trans recv) as [[[t1 r1] [e|]]|];
        go_simpl; try discriminate; [left; congruence|]. eapply Hnext; eauto. }
    destruct (Contains line "min/avg/max").
    { destruct (checkRoundTripTimeStats line min avg max stddev)
        as [[[[[mn av] mx] sd] [e|]]|]; go_simpl; try discriminate;
        [left; congruence|]. eapply Hnext; eauto. }
    eapply Hnext; eauto.
Qed.

(** X4: the ttl that [processPingOutput] returns is -1, or it lies between
    0 and the largest int and is what [getTTL] read from the first line of
    the output that holds "ttl="; later ttl lines do not change it. *)
Theorem processPingOutput_first_ttl out trans recv ttl min avg max stddev err :
  processPingOutput out =
    Ret (trans, recv, ttl, min, avg, max, stddev, err) ->
  ttl = -1 \/
  (0 <= ttl <= maxInt64 /\
   exists l1 line l2 e,
     Split out newline = l1 ++ line :: l2 /\
     Forall (fun l => Contains l "ttl=" = false) l1 /\
     Contains line "ttl=" = true /\
     getTTL line = Ret (ttl, e)).
Proof. unfold processPingOutput. apply processLines_ttl_first. Qed.

Lemma processPingOutput_first_ttl_witness :
  let out := "64 bytes from 1.2.3.4: icmp_seq=0 ttl=54 time=52.172 ms" +:+
             newline +:+
             "64 bytes from 1.2.3.4: icmp_seq=1 ttl=60 time=34.843 ms" in
  processPingOutput out =
    Ret (0, 0, 54, minus1, minus1, minus1, minus1, None) /\
  (54 = -1 \/
   (0 <= 54 <= maxInt64 /\
    exists l1 line l2 e,
      Split out newline = l1 ++ line :: l2 /\
      Forall (fun l => Contains l "ttl=" = false) l1 /\
      Contains line "ttl=" = true /\
      getTTL line = Ret (54, e))).
Proof.
  cbv zeta. split; [vm_compute; reflexivity|].
  apply (processPingOutput_first_ttl _ 0 0 54 minus1 minus1 minus1 minus1 None).
  vm_compute; reflexivity.
Defined.

(** ** The round-trip line: other numbers of pieces *)

(** X5: the round-trip line with a number of pieces other than 3 or 4.
    With five pieces or more the first three are returned as min, avg and
    max, stddev is left as it came in, and the fourth and later pieces are
    not parsed.  With one or two pieces, all of them numbers,
    [checkRoundTripTimeStats] panics on the missing piece. *)
Theorem checkRoundTripTimeStats_other_arity line tok min0 avg0 max0 stddev0 :
  Split line " " !! 3%nat = Some tok ->
  (forall a b c d e rest x y z,
     Split tok "/" = a :: b :: c :: d :: e :: rest ->
     ParseFloat a = (x, None) -> ParseFloat b = (y, None) ->
     ParseFloat c = (z, None) ->
     checkRoundTripTimeStats line min0 avg0 max0 stddev0 =
       Ret (x, y, z, stddev0, None)) /\
  (forall a b x y,
     Split tok "/" = [a; b] ->
     ParseFloat a = (x, None) -> ParseFloat b = (y, None) ->
     checkRoundTripTimeStats line min0 avg0 max0 stddev0 =
       Panic "runtime error: index out of range") /\
  (forall a x,
     Split tok "/" = [a] ->
     ParseFloat a = (x, None) ->
     checkRoundTripTimeStats line min0 avg0 max0 stddev0 =
       Panic "runtime error: index out of range").
Proof.
  intros Htok. pose proof (index_lookup _ _ _ Htok) as Hidx.
  split; [|split].
  - intros * Hdata Ha Hb Hc.
    unfold checkRoundTripTimeStats. rewrite Hidx. go_simpl.
    rewrite Hdata. cbn. rewrite Ha, Hb, Hc. reflexivity.
  - intros * Hdata Ha Hb.
    unfold checkRoundTripTimeStats. rewrite Hidx. go_simpl.
    rewrite Hdata. cbn. rewrite Ha, Hb. reflexivity.
  - intros * Hdata Ha.
    unfold checkRoundTripTimeStats. rewrite Hidx. go_simpl.
    rewrite Hdata. cbn. rewrite Ha. reflexivity.
Qed.

Lemma checkRoundTripTimeStats_other_arity_witness :
  let line := "rtt min/avg/max/mdev/extra = 1/2/3/x/y ms" in
  Split line " " !! 3%nat = Some "1/2/3/x/y" /\
  checkRoundTripTimeStats line minus1 minus1 minus1 minus1 =
    Ret (fst (ParseFloat "1"), fst (ParseFloat "2"), fst (ParseFloat "3"),
         minus1, None).
Proof.
  split; [reflexivity|].
  destruct (checkRoundTripTimeStats_other_arity
              "rtt min/avg/max/mdev/extra = 1/2/3/x/y ms" "1/2/3/x/y"
              minus1 minus1 minus1 minus1 eq_refl) as [H5 _].
  apply (H5 "1" "2" "3" "x" "y" []); reflexivity.
Defined.

(** ** Which summary line counts *)

(** Lines that are not read as a summary line leave the counts alone. *)
Lemma processLines_counts_kept lines :
  forall trans recv ttl min avg max stddev err
         trans' recv' ttl' min' avg' max' stddev' err',
  Forall (fun l => isSummaryLine l = false) lines ->
  processLines lines trans recv ttl min avg max stddev err =
    Ret (trans', recv', ttl', min', avg', max', stddev', err') ->
  trans' = trans /\ recv' = recv.
Proof.
  induction lines as [|line lines IH]; intros * Hall Hrun.
  - cbn in Hrun. split; congruence.
  - inversion Hall as [|? ? Hsum Hrest]; subst.
    cbn [processLines] in Hrun. unfold isSummaryLine in Hsum.
    destruct ((ttl =? -1) && Contains line "ttl=").
    { destruct (getTTL line) as [[t1 e1]|]; go_simpl; [|discriminate].
      eapply IH; eauto. }
    rewrite Hsum in Hrun.
    destruct (Contains line "min/avg/max").
    { destruct (checkRoundTripTimeStats line min avg max stddev)
        as [[[[[mn av] mx] sd] [e|]]|]; go_simpl; try discriminate;
        [split; congruence|]. eapply IH; eauto. }
    eapply IH; eauto.
Qed.

Lemma processLines_last_summary l1 line l2 :
  forall trans recv ttl min avg max stddev err
         trans' recv' ttl' min' avg' max' stddev',
  isSummaryLine line = true ->
  Contains line "ttl=" = false ->
  Forall (fun l => isSummaryLine l = false) l2 ->
  processLines (l1 ++ line :: l2) trans recv ttl min avg max stddev err =
    Ret (trans', recv', ttl', min', avg', max', stddev', None) ->
  getPacketStats line 0 0 = Ret (trans', recv', None).
Proof.
  induction l1 as [|l l1 IH]; intros * Hsum Httl Hl2 Hrun.
  - cbn [app processLines] in Hrun.
    rewrite Httl, Bool.andb_false_r in Hrun.
    unfold isSummaryLine in Hsum. rewrite Hsum in Hrun.
    destruct (getPacketStats line trans recv) as [[[t1 r1] [e|]]|] eqn:Hstats;
      go_simpl; try discriminate.
    destruct (processLines_counts_kept _ _ _ _ _ _ _ _ _ _ _ _ _ _ _ _ _ Hl2 Hrun)
      as [-> ->].
    eapply getPacketStats_success; exact Hstats.
  - cbn [app processLines] in Hrun.
    destruct ((ttl =? -1) && Contains l "ttl=").
    { destruct (getTTL l) as [[t1 e1]|]; go_simpl; [|discriminate].
      eapply IH; eauto. }
    destruct (Contains l "transmitted" && Contains l "received").
    { destruct (getPacketStats l trans recv) as [[[t1 r1] [e|]]|];
        go_simpl; try discriminate. eapply IH; eauto. }
    destruct (Contains l "min/avg/max").
    { destruct (checkRoundTripTimeStats l min avg max stddev)
        as [[[[[mn av] mx] sd] [e|]]|]; go_simpl; try discriminate.
      eapply IH; eauto. }
    eapply IH; eauto.
Qed.

(** X6: of several summary lines the last one counts: when the output
    parses with a nil error, the counts returned are those of a summary
    line (one without "ttl=") after which no other summary line comes,
    whatever the lines before it gave. *)
Theorem processPingOutput_last_summary
    out l1 line l2 trans recv ttl min avg max stddev :
  Split out newline = l1 ++ line :: l2 ->
  isSummaryLine line = true ->
  Contains line "ttl=" = false ->
  Forall (fun l => isSummaryLine l = false) l2 ->
  processPingOutput out =
    Ret (trans, recv, ttl, min, avg, max, stddev, None) ->
  getPacketStats line 0 0 = Ret (trans, recv, None).
Proof.
  intros Hout Hsum Httl Hl2. unfold processPingOutput. rewrite Hout.
  apply processLines_last_summary; assumption.
Qed.

Lemma processPingOutput_last_summary_witness :
  let out := "1 packets transmitted, 1 packets received" +:+ newline +:+
             "round-trip min/avg/max = 1/2/3 ms" +:+ newline +:+
             "5 packets transmitted, 4 packets received" +:+ newline +:+
             "" in
  Split out newline =
    ["1 packets transmitted, 1 packets received";
     "round-trip min/avg/max = 1/2/3 ms"] ++
    "5 packets transmitted, 4 packets received" :: [""] /\
  processPingOutput out =
    Ret (5, 4, -1, fst (ParseFloat "1"), fst (ParseFloat "2"),
         fst (ParseFloat "3"), minus1, None) /\
  getPacketStats "5 packets transmitted, 4 packets received" 0 0 =
    Ret (5, 4, None).
Proof.
  cbv zeta. split; [reflexivity|split; [vm_compute; reflexivity|]].
  apply (processPingOutput_last_summary
           ("1 packets transmitted, 1 packets received" +:+ newline +:+
            "round-trip min/avg/max = 1/2/3 ms" +:+ newline +:+
            "5 packets transmitted, 4 packets received" +:+ newline +:+ "")
           ["1 packets transmitted, 1 packets received";
            "round-trip min/avg/max = 1/2/3 ms"]
           "5 packets transmitted, 4 packets received" [""] 5 4 (-1)
           (fst (ParseFloat "1")) (fst (ParseFloat "2"))
           (fst (ParseFloat "3")) minus1).
  - reflexivity.
  - reflexivity.
  - reflexivity.
  - repeat constructor.
  - vm_compute; reflexivity.
Defined.

(** ** Outputs on which the parser cannot panic *)


Lemma getTTL_returns line :
  ttlLine_FindStringSubmatch line <> [] -> exists r, getTTL line = Ret r.
Proof.
  intros Hm. unfold getTTL.
  destruct (ttlLine_FindStringSubmatch_shape line) as [?|(s & _ & ->)];
    [contradiction|]. cbn. eauto.
Qed.

(** A text that holds the separator is cut into two pieces at least. *)
Lemma Split_two s c sep :
  Contains s (String c sep) = true ->
  exists p q qs, Split s (String c sep) = p :: q :: qs.
Proof.
  unfold Split. induction s as [|d s IH]; intros H.
  - cbn in H. discriminate.
  - cbn [Contains] in H. cbn [splitFrom].
    destruct (HasPrefix (String d s) (String c sep)).
    + destruct (splitFrom_cons (String c sep) s (String.length (String c sep) - 1))
        as (q & qs & ->). eauto.
    + cbn [orb] in H. destruct (IH H) as (p & q & qs & ->). eauto.
Qed.

Lemma Split_first s c sep : exists p ps, Split s (String c sep) = p :: ps.
Proof. apply splitFrom_cons. Qed.

Lemma getPacketStats_returns line trans recv :
  Contains line ", " = true ->
  exists r, getPacketStats line trans recv = Ret r.
Proof.
  intros H. unfold getPacketStats.
  destruct (Split_two line _ _ H) as (p & q & qs & ->).
  rewrite (index_lookup (p :: q :: qs) 0 p eq_refl). go_simpl.
  destruct (Split_first p " " "") as (t0 & ts0 & ->).
  rewrite (index_lookup (t0 :: ts0) 0 t0 eq_refl).
  destruct (Atoi t0) as [n [e|]]; [eauto|].
  rewrite (index_lookup (p :: q :: qs) 1 q eq_refl).
  destruct (Split_first q " " "") as (t1 & ts1 & ->).
  rewrite (index_lookup (t1 :: ts1) 0 t1 eq_refl).
  destruct (Atoi t1) as [m e]. eauto.
Qed.

Lemma checkRoundTripTimeStats_returns line tok min avg max stddev :
  Split line " " !! 3%nat = Some tok ->
  (3 <= length (Split tok "/"))%nat ->
  exists r, checkRoundTripTimeStats line min avg max stddev = Ret r.
Proof.
  intros Htok Hlen. unfold checkRoundTripTimeStats.
  rewrite (index_lookup _ _ _ Htok). go_simpl.
  destruct (Split tok "/") as [|a [|b [|c data]]]; cbn in Hlen; try lia.
  rewrite (index_lookup (a :: b :: c :: data) 0 a eq_refl).
  destruct (ParseFloat a) as [x [e|]]; [eauto|].
  rewrite (index_lookup (a :: b :: c :: data) 1 b eq_refl).
  destruct (ParseFloat b) as [y [e|]]; [eauto|].
  rewrite (index_lookup (a :: b :: c :: data) 2 c eq_refl).
  destruct (ParseFloat c) as [z [e|]]; [eauto|].
  destruct data as [|d [|? ?]]; cbn [length Nat.eqb]; try eauto.
  rewrite (index_lookup [a; b; c; d] 3 d eq_refl).
  destruct (ParseFloat d) as [s e]. eauto.
Qed.

Lemma processLines_returns lines :
  forall trans recv ttl min avg max stddev err,
  Forall (fun l => wellShaped l = true) lines ->
  exists r, processLines lines trans recv ttl min avg max stddev err = Ret r.
Proof.
  induction lines as [|line lines IH]; intros * Hall; [cbn; eauto|].
  inversion Hall as [|? ? Hshape Hrest]; subst.
  unfold wellShaped in Hshape.
  apply andb_prop in Hshape as [Hshape Hrtt].
  apply andb_prop in Hshape as [Httl Hsum].
  cbn [processLines].
  destruct ((ttl =? -1) && Contains line "ttl=") eqn:Hb1.
  { apply andb_prop in Hb1 as [_ Hc]. rewrite Hc in Httl. cbn in Httl.
    destruct (getTTL_returns line) as ([t1 e1] & ->).
    { destruct (ttlLine_FindStringSubmatch line); [discriminate|congruence]. }
    go_simpl. apply IH, Hrest. }
  fold (isSummaryLine line). destruct (isSummaryLine line) eqn:Hb2.
  { cbn in Hsum.
    destruct (getPacketStats_returns line trans recv Hsum)
      as ([[t1 r1] [e|]] & ->); go_simpl; [eauto|]. apply IH, Hrest. }
  destruct (Contains line "min/avg/max") eqn:Hb3.
  { destruct (Split line " " !! 3%nat) as [tok|] eqn:Htok;
      cbn [implb] in Hrtt; [|discriminate].
    apply Nat.leb_le in Hrtt.
    destruct (checkRoundTripTimeStats_returns line tok min avg max stddev
                Htok Hrtt) as ([[[[mn av] mx] sd] [e|]] & ->);
      go_simpl; [eauto|]. apply IH, Hrest. }
  apply IH, Hrest.
Qed.

(** X7: [processPingOutput] does not panic on an output all of whose lines
    are well shaped: it returns, with or without an error. *)
Theorem processPingOutput_returns out :
  Forall (fun l => wellShaped l = true) (Split out newline) ->
  exists r, processPingOutput out = Ret r.
Proof. intros Hall. unfold processPingOutput. apply processLines_returns, Hall. Qed.

Lemma processPingOutput_returns_witness :
  Forall (fun l => wellShaped l = true) (Split sampleOutput newline) /\
  exists r, processPingOutput sampleOutput = Ret r.
Proof.
  assert (H : Forall (fun l => wellShaped l = true)
                     (Split sampleOutput newline)).
  { apply Forall_forallb. vm_compute. reflexivity. }
  split; [exact H|]. apply (processPingOutput_returns sampleOutput H).
Defined.

(** * Further properties of the probe runner *)


Lemma parseAndReport_failure u out code w trans rec ttl min avg max stddev e :
  processPingOutput out =
    Ret (trans, rec, ttl, min, avg, max, stddev, Some e) ->
  parseAndReport u out {[ "result_code" := VInt code ]} {[ "url" := u ]} w =
    (Ret tt,
     reported
       (failed (logged w [EvProcessPingOutput out])
               (fmtErrorf "%s: %s" [argError e; argString u]))
       (failureMetric u 2)).
Proof.
  intros Hparse. unfold parseAndReport. m_simpl. rewrite Hparse. cbn.
  unfold failureMetric. rewrite insert_singleton_eq. reflexivity.
Qed.

Lemma parseAndReport_panic u out fs ts w msg :
  processPingOutput out = Panic msg ->
  parseAndReport u out fs ts w = (Panic msg, logged w [EvProcessPingOutput out]).
Proof. intros Hparse. unfold parseAndReport. m_simpl. rewrite Hparse. reflexivity. Qed.

Section RunnerMore.
Variable GOOS : string.
Variable LookupHost : string -> list string * option error.
Variable FormatFloat : float64 -> string.

(** After a lookup that succeeds and a call of [pingHost] that returns
    without a fatal error, [pingToURL] is the deferred [Done] around the
    parse and the report. *)
Lemma pingToURL_after_call p u w addrs out err w' :
  LookupHost u = (addrs, None) ->
  pingHost p (Binary p) (totalTimeout p) (args FormatFloat p u GOOS)
           (atCall GOOS FormatFloat p u w) = (Ret (out, err), w') ->
  goesOnToParse err = true ->
  pingToURL GOOS LookupHost FormatFloat p u w =
    defer wg_Done
      (fun _ => parseAndReport u out
                  {[ "result_code" := VInt (codeBeforeParse err) ]}
                  {[ "url" := u ]} w') w.
Proof.
  intros Hlookup Hcall Hgo.
  unfold pingToURL, defer. unfold logEvent, AddError, AddFields. go_simpl.
  rewrite Hlookup. cbn. unfold atCall in Hcall. rewrite Hcall. cbn.
  destruct err as [e|]; [|reflexivity].
  cbn in Hgo.
  destruct e as [text|fn num e|[ws|]|text|fmt a]; cbn in Hgo; try discriminate.
  cbn. rewrite Hgo. cbn. rewrite insert_singleton_eq.
  apply Z.eqb_eq in Hgo. rewrite Hgo. reflexivity.
Qed.

(** X8: the lookup succeeds, [pingHost] returns without error and the
    output parses with a nil error.  [pingToURL] reports no error and one
    field set with [result_code = 0], the two counts, the loss, and those
    of ttl, min, avg, max and stddev that are not negative. *)
Theorem pingToURL_success
    p u w addrs out w' trans rec ttl min avg max stddev :
  LookupHost u = (addrs, None) ->
  pingHost p (Binary p) (totalTimeout p) (args FormatFloat p u GOOS)
           (atCall GOOS FormatFloat p u w) = (Ret (out, None), w') ->
  processPingOutput out =
    Ret (trans, rec, ttl, min, avg, max, stddev, None) ->
  0 < wg w' ->
  exists fs,
    pingToURL GOOS LookupHost FormatFloat p u w =
      (Ret tt,
       counted
         (reported (logged w' [EvProcessPingOutput out])
            {| measurement := "ping"; fields := fs;
               tags := {[ "url" := u ]} |})
         (-1))
    /\ forall key,
         fs !! key = statsField 0 trans rec ttl min avg max stddev key.
Proof.
  intros Hlookup Hcall Hparse Hwg.
  destruct (parseAndReport_success u out 0 w' _ _ _ _ _ _ _ Hparse)
    as (fs & Hreport & Hfs).
  exists fs. split; [|exact Hfs].
  rewrite (pingToURL_after_call p u w addrs out None w' Hlookup Hcall eq_refl).
  unfold defer. cbn [codeBeforeParse]. rewrite Hreport.
  unfold wg_Done, wg_Add. cbn. rewrite (wg_Done_ok w' Hwg). reflexivity.
Qed.

(** X9: [pingHost] returns without error, or with an exit status of 1, and
    the parser returns an error.  [pingToURL] reports that error, wrapped
    with the url, and one field set that holds [result_code = 2] and
    nothing else; a status of 1 stored before is overwritten. *)
Theorem pingToURL_parse_failure
    p u w addrs out err w' trans rec ttl min avg max stddev e :
  LookupHost u = (addrs, None) ->
  pingHost p (Binary p) (totalTimeout p) (args FormatFloat p u GOOS)
           (atCall GOOS FormatFloat p u w) = (Ret (out, err), w') ->
  goesOnToParse err = true ->
  processPingOutput out =
    Ret (trans, rec, ttl, min, avg, max, stddev, Some e) ->
  0 < wg w' ->
  pingToURL GOOS LookupHost FormatFloat p u w =
    (Ret tt,
     counted
       (reported
          (failed (logged w' [EvProcessPingOutput out])
                  (fmtErrorf "%s: %s" [argError e; argString u]))
          (failureMetric u 2))
       (-1)).
Proof.
  intros Hlookup Hcall Hgo Hparse Hwg.
  rewrite (pingToURL_after_call p u w addrs out err w' Hlookup Hcall Hgo).
  unfold defer.
  rewrite (parseAndReport_failure u out _ w' _ _ _ _ _ _ _ _ Hparse).
  unfold wg_Done, wg_Add. cbn. rewrite (wg_Done_ok w' Hwg). reflexivity.
Qed.

(** X10: when the parser panics on the output, [pingToURL] panics with the
    same message; nothing is reported to the accumulator, neither an error
    nor a field set, and the deferred [Done] still counts the probe
    down. *)
Theorem pingToURL_parser_panic p u w addrs out err w' msg :
  LookupHost u = (addrs, None) ->
  pingHost p (Binary p) (totalTimeout p) (args FormatFloat p u GOOS)
           (atCall GOOS FormatFloat p u w) = (Ret (out, err), w') ->
  goesOnToParse err = true ->
  processPingOutput out = Panic msg ->
  pingToURL GOOS LookupHost FormatFloat p u w =
    (Panic msg, counted (logged w' [EvProcessPingOutput out]) (-1)).
Proof.
  intros Hlookup Hcall Hgo Hparse.
  rewrite (pingToURL_after_call p u w addrs out err w' Hlookup Hcall Hgo).
  unfold defer.
  rewrite (parseAndReport_panic u out _ _ w' msg Hparse).
  unfold wg_Done, wg_Add. cbn.
  destruct (wg w' + -1 <? 0); reflexivity.
Qed.


Lemma pingToURL_probe p u w :
  pingToURL GOOS LookupHost FormatFloat p u w = defer wg_Done (probe GOOS LookupHost FormatFloat p u) w.
Proof.
  unfold pingToURL, probe, defer. unfold logEvent, AddError, AddFields.
  go_simpl.
  destruct (LookupHost u) as [addrs [e|]]; cbn.
  { unfold failureMetric. rewrite insert_singleton_eq. reflexivity. }
  unfold atCall.
  destruct (pingHost p (Binary p) (totalTimeout p) (args FormatFloat p u GOOS)
              (logged (logged w [EvLookupHost u])
                 [EvPingHost (Binary p) (totalTimeout p)
                    (args FormatFloat p u GOOS)]))
    as [[[out [e|]]|msg] w']; cbn; try reflexivity.
  unfold failureMetric, hostError.
  destruct e as [text|fn num e|[ws|]|text|fmt a]; cbn;
    try (destruct (String.length (TrimSpace out)); cbn;
         rewrite insert_singleton_eq; reflexivity).
  destruct (ExitStatus ws =? 1) eqn:Hws; cbn.
  - rewrite insert_singleton_eq. apply Z.eqb_eq in Hws. rewrite Hws.
    reflexivity.
  - destruct (String.length (TrimSpace out)); cbn;
      rewrite insert_insert_eq, insert_singleton_eq; reflexivity.
Qed.

(** What [parseAndReport] leaves behind when it returns: one more field
    set, for the measurement "ping" and the url, with the result code it
    was given or 2. *)
Lemma parseAndReport_record u out code w w1 :
  parseAndReport u out {[ "result_code" := VInt code ]} {[ "url" := u ]} w =
    (Ret tt, w1) ->
  exists m, accMetrics w1 = accMetrics w ++ [m] /\
            measurement m = "ping" /\ tags m = {[ "url" := u ]} /\
            (fields m !! "result_code" = Some (VInt code) \/
             fields m !! "result_code" = Some (VInt 2)).
Proof.
  destruct (processPingOutput out)
    as [[[[[[[[trans rec] ttl] mn] av] mx] sd] [e|]]|msg] eqn:Hparse.
  - rewrite (parseAndReport_failure u out code w _ _ _ _ _ _ _ _ Hparse).
    intros H. injection H as <-. eexists. split; [reflexivity|].
    repeat split. right. reflexivity.
  - destruct (parseAndReport_success u out code w _ _ _ _ _ _ _ Hparse)
      as (fs & -> & Hfs).
    intros H. injection H as <-. eexists. split; [reflexivity|].
    repeat split. left. cbn. rewrite Hfs. reflexivity.
  - rewrite (parseAndReport_panic u out _ _ w msg Hparse). discriminate.
Qed.

Lemma defer_wg_Done_returns {A : Type} (body : M A) w (a : A) w1 :
  defer wg_Done body w = (Ret a, w1) ->
  exists w0, body w = (Ret a, w0) /\ w1 = counted w0 (-1).
Proof.
  unfold defer, wg_Done, wg_Add. destruct (body w) as [r w0].
  destruct (wg w0 + -1 <? 0); intros H.
  - destruct r; discriminate.
  - injection H as -> <-. eauto.
Qed.

(** X11: whenever [pingToURL] returns, it has added exactly one field set
    to those the accumulator held (when the lookup failed) or held when
    [pingHost] returned: for the measurement "ping", tagged with the url,
    and with a result code that is 0, 1 or 2. *)
Theorem pingToURL_one_record p u w w1 :
  pingToURL GOOS LookupHost FormatFloat p u w = (Ret tt, w1) ->
  exists m code,
    measurement m = "ping" /\ tags m = {[ "url" := u ]} /\
    fields m !! "result_code" = Some (VInt code) /\
    (code = 0 \/ code = 1 \/ code = 2) /\
    match LookupHost u with
    | (_, Some _) => accMetrics w1 = accMetrics w ++ [m]
    | (_, None) =>
        exists out err w',
          pingHost p (Binary p) (totalTimeout p) (args FormatFloat p u GOOS)
                   (atCall GOOS FormatFloat p u w) = (Ret (out, err), w') /\
          accMetrics w1 = accMetrics w' ++ [m]
    end.
Proof.
  rewrite pingToURL_probe. intros H.
  apply defer_wg_Done_returns in H as (w0 & Hbody & ->).
  unfold probe in Hbody.
  destruct (LookupHost u) as [addrs [e|]].
  { injection Hbody as <-. exists (failureMetric u 1), 1.
    repeat split; auto. }
  destruct (pingHost p (Binary p) (totalTimeout p) (args FormatFloat p u GOOS)
              (atCall GOOS FormatFloat p u w))
    as [[[out [e|]]|msg] w'] eqn:Hcall; [| |discriminate].
  - destruct (statusOf e =? 1).
    + apply parseAndReport_record in Hbody as (m & Hm & Hname & Htags & Hcode).
      destruct Hcode as [Hcode|Hcode];
        [exists m, 1|exists m, 2]; repeat split; eauto 6.
    + injection Hbody as <-. exists (failureMetric u 2), 2.
      repeat split; eauto 6.
  - apply parseAndReport_record in Hbody as (m & Hm & Hname & Htags & Hcode).
    destruct Hcode as [Hcode|Hcode];
      [exists m, 0|exists m, 2]; repeat split; eauto 6.
Qed.

Lemma parseAndReport_wg u out fs ts w :
  wg (snd (parseAndReport u out fs ts w)) = wg w.
Proof.
  unfold parseAndReport. m_simpl.
  destruct (processPingOutput out)
    as [[[[[[[[trans rec] ttl] mn] av] mx] sd] [e|]]|]; reflexivity.
Qed.

Lemma defer_wg_Done_wg {A : Type} (body : M A) w :
  wg (snd (defer wg_Done body w)) = wg (snd (body w)) - 1.
Proof.
  unfold defer, wg_Done, wg_Add. destruct (body w) as [r w0]. cbn.
  destruct (wg w0 + -1 <? 0); cbn; lia.
Qed.

(** X12: on every path, a panic of [pingHost] or of the parser included,
    [pingToURL] counts the wait group down by one, once: from the counter
    it started with when the lookup fails, from the counter [pingHost]
    left otherwise. *)
Theorem pingToURL_wg_done p u w :
  wg (snd (pingToURL GOOS LookupHost FormatFloat p u w)) =
    match LookupHost u with
    | (_, Some _) => wg w - 1
    | (_, None) =>
        wg (snd (pingHost p (Binary p) (totalTimeout p)
                          (args FormatFloat p u GOOS)
                          (atCall GOOS FormatFloat p u w))) - 1
    end.
Proof.
  rewrite pingToURL_probe, defer_wg_Done_wg. unfold probe.
  destruct (LookupHost u) as [addrs [e|]]; [reflexivity|].
  destruct (pingHost p (Binary p) (totalTimeout p) (args FormatFloat p u GOOS)
              (atCall GOOS FormatFloat p u w))
    as [[[out [e|]]|msg] w']; cbn [snd]; try reflexivity.
  - destruct (statusOf e =? 1); [|reflexivity].
    rewrite parseAndReport_wg. reflexivity.
  - rewrite parseAndReport_wg. reflexivity.
Qed.

Variable LookPath : string -> string * option error.
Variable CombinedOutputTimeout :
  string -> list string -> Z -> string * option error.

(** X13: with [hostPinger] as the pinger, a binary that [exec.LookPath]
    does not find is not run: the call log ends with the [LookPath] call,
    the error of [LookPath] is reported in the form "host %s: %s" (there
    is no output to add), and the field set holds [result_code = 2] and
    nothing else. *)
Theorem pingToURL_binary_not_found p u w addrs bin e :
  LookupHost u = (addrs, None) ->
  pingHost p = hostPinger LookPath CombinedOutputTimeout ->
  LookPath (Binary p) = (bin, Some e) ->
  statusOf e <> 1 ->
  0 < wg w ->
  pingToURL GOOS LookupHost FormatFloat p u w =
    (Ret tt,
     counted
       (reported
          (failed (logged (atCall GOOS FormatFloat p u w)
                          [EvLookPath (Binary p)])
                  (fmtErrorf "host %s: %s" [argString u; argError e]))
          (failureMetric u 2))
       (-1)).
Proof.
  intros Hlookup Hhost Hpath Hstatus Hwg.
  rewrite pingToURL_probe. unfold defer, probe.
  rewrite Hlookup, Hhost. unfold hostPinger. m_simpl. rewrite Hpath. cbn.
  apply Z.eqb_neq in Hstatus. rewrite Hstatus.
  cbn. rewrite (wg_Done_ok w Hwg). reflexivity.
Qed.

End RunnerMore.

(** ** The ttl of a reply line *)

Lemma HasPrefix_ttl_straddle pre t :
  pre <> "" -> HasPrefix pre "ttl=" = false ->
  HasPrefix (pre +:+ "ttl=" +:+ t) "ttl=" = false.
Proof.
  intros Hne Hp.
  destruct pre as [|c [|d [|e [|f pre]]]]; [congruence| | | |];
    rewrite ?append_cons, ?append_nil;
    change ("ttl=" +:+ t) with (String "t" (String "t" (String "l" (String "=" t))));
    cbn [HasPrefix] in Hp |- *.
  - destruct (Ascii.eqb "t" c); reflexivity.
  - destruct (Ascii.eqb "t" c); [|reflexivity].
    destruct (Ascii.eqb "t" d); reflexivity.
  - destruct (Ascii.eqb "t" c); [|reflexivity].
    destruct (Ascii.eqb "t" d); [|reflexivity].
    destruct (Ascii.eqb "l" e); reflexivity.
  - rewrite HasPrefix_nil in *. exact Hp.
Qed.

Lemma ttlLine_FindStringSubmatch_first pre digits rest :
  Contains pre "ttl=" = false ->
  takeDigits (digits +:+ rest) = digits -> digits <> "" ->
  ttlLine_FindStringSubmatch (pre +:+ "ttl=" +:+ digits +:+ rest) =
    ["ttl=" +:+ digits; digits].
Proof.
  intros Hpre Hdigits Hne. induction pre as [|c pre IH].
  - rewrite append_nil.
    change ("ttl=" +:+ digits +:+ rest)
      with (String "t" (String "t" (String "l" (String "=" (digits +:+ rest))))).
    cbn [ttlLine_FindStringSubmatch drop4]. rewrite Hdigits.
    cbn [HasPrefix Ascii.eqb Bool.eqb]. rewrite HasPrefix_nil.
    destruct (String.eqb_spec digits ""); [contradiction|reflexivity].
  - cbn [Contains] in Hpre. apply Bool.orb_false_iff in Hpre as [Hp Hc].
    pose proof (HasPrefix_ttl_straddle (String c pre) (digits +:+ rest)
                  ltac:(discriminate) Hp) as Hno.
    rewrite append_cons in Hno |- *.
    cbn [ttlLine_FindStringSubmatch]. rewrite Hno. cbn [andb].
    apply IH, Hc.
Qed.

(** X14: on a line that has no "ttl=" before its first "ttl=<digits>",
    [getTTL] returns what [Atoi] reads from the whole run of digits that
    follows; the value lies between 0 and the largest int (a run too long
    for an int gives the largest int and a range error). *)
Theorem getTTL_value pre digits rest :
  Contains pre "ttl=" = false ->
  takeDigits (digits +:+ rest) = digits -> digits <> "" ->
  getTTL (pre +:+ "ttl=" +:+ digits +:+ rest) = Ret (Atoi digits) /\
  0 <= fst (Atoi digits) <= maxInt64.
Proof.
  intros Hpre Hdigits Hne. unfold getTTL.
  rewrite (ttlLine_FindStringSubmatch_first pre digits rest Hpre Hdigits Hne).
  split; [reflexivity|].
  destruct (Atoi digits) as [v e] eqn:Hatoi. cbn [fst].
  rewrite <- Hdigits in Hatoi, Hne.
  eapply Atoi_takeDigits; eauto.
Qed.

Lemma getTTL_value_witness :
  Contains "64 bytes from 1.2.3.4: icmp_seq=0 " "ttl=" = false /\
  takeDigits ("54" +:+ " time=52.172 ms") = "54" /\
  getTTL "64 bytes from 1.2.3.4: icmp_seq=0 ttl=54 time=52.172 ms" =
    Ret (54, None).
Proof.
  split; [reflexivity|split; [reflexivity|]].
  apply (getTTL_value "64 bytes from 1.2.3.4: icmp_seq=0 " "54"
           " time=52.172 ms"); [reflexivity|reflexivity|discriminate].
Defined.

(** ** The command builder on other systems *)

(** X15: on a system that is none of darwin, freebsd, netbsd and openbsd,
    [args] is what it is on linux as long as no interface is set (or the
    override is used).  With an interface set and no override, any such
    system other than linux gets the interface after "-i", the letter of
    the interval flag, where linux gets it after "-I"; the flags before are
    the same. *)
Theorem args_unknown_system FormatFloat p url system :
  system <> "darwin" -> system <> "freebsd" -> system <> "netbsd" ->
  system <> "openbsd" ->
  (Interface p = "" \/ Arguments p <> [] ->
   args FormatFloat p url system = args FormatFloat p url "linux") /\
  (Interface p <> "" -> Arguments p = [] -> system <> "linux" ->
   exists flags,
     args FormatFloat p url system = flags ++ ["-i"; Interface p; url] /\
     args FormatFloat p url "linux" = flags ++ ["-I"; Interface p; url]).
Proof.
  intros Hd Hf Hn Ho.
  apply String.eqb_neq in Hd, Hf, Hn, Ho.
  unfold args. rewrite Hd, Hf, Hn, Ho. cbn [orb].
  change (String.eqb "linux" "darwin") with false.
  change (String.eqb "linux" "freebsd") with false.
  change (String.eqb "linux" "netbsd") with false.
  change (String.eqb "linux" "openbsd") with false.
  change (String.eqb "linux" "linux") with true. cbn [orb].
  split.
  - intros Hcase. destruct (Arguments p) as [|a l]; [|reflexivity].
    destruct Hcase as [Hi|Hne]; [|congruence]. rewrite Hi.
    cbn [length Nat.ltb Nat.leb String.eqb negb].
    destruct (String.eqb system "linux"); reflexivity.
  - intros Hi Hargs Hl. rewrite Hargs. cbn [length Nat.ltb Nat.leb].
    apply String.eqb_neq in Hi, Hl. rewrite Hi, Hl. cbn [negb].
    eexists. split.
    + rewrite <- app_assoc. reflexivity.
    + rewrite <- app_assoc. reflexivity.
Qed.

Lemma args_unknown_system_witness :
  let p := {| pingHost := mockHostPinger "" None;
              PingInterval := f64.ofInt 1; Count := 1;
              Timeout := f64.ofInt 1; Deadline := 10; Interface := "eth0";
              Urls := []; Binary := "ping"; Arguments := [] |} in
  "solaris" <> "darwin" /\ Interface p <> "" /\ Arguments p = [] /\
  exists flags,
    args formatAny p "example.org" "solaris" =
      flags ++ ["-i"; "eth0"; "example.org"] /\
    args formatAny p "example.org" "linux" =
      flags ++ ["-I"; "eth0"; "example.org"].
Proof.
  cbv zeta. split; [discriminate|split; [discriminate|split; [reflexivity|]]].
  refine (proj2 (args_unknown_system formatAny _ "example.org" "solaris"
                   _ _ _ _) _ _ _); try discriminate; reflexivity.
Defined.

Lemma parseAndReport_log u out fs ts w :
  trace (snd (parseAndReport u out fs ts w)) =
    trace w ++ [EvProcessPingOutput out].
Proof.
  unfold parseAndReport. m_simpl.
  destruct (processPingOutput out)
    as [[[[[[[[trans rec] ttl] mn] av] mx] sd] [e|]]|]; reflexivity.
Qed.

Lemma defer_wg_Done_log {A : Type} (body : M A) w :
  trace (snd (defer wg_Done body w)) = trace (snd (body w)).
Proof.
  unfold defer, wg_Done, wg_Add. destruct (body w) as [r w1]. cbn.
  destruct (wg w1 + -1 <? 0); reflexivity.
Qed.

(** X16: after [pingHost] has returned, [pingToURL] adds to the call log
    one call of the parser, on the output as [pingHost] returned it, when
    the error is nil or an exit with status 1, and nothing otherwise. *)
Theorem pingToURL_parser_called
    GOOS LookupHost FormatFloat p u w addrs out err w' :
  LookupHost u = (addrs, None) ->
  pingHost p (Binary p) (totalTimeout p) (args FormatFloat p u GOOS)
           (atCall GOOS FormatFloat p u w) = (Ret (out, err), w') ->
  trace (snd (pingToURL GOOS LookupHost FormatFloat p u w)) =
    trace w' ++
    (if goesOnToParse err then [EvProcessPingOutput out] else []).
Proof.
  intros Hlookup Hcall.
  rewrite pingToURL_probe, defer_wg_Done_log. unfold probe.
  rewrite Hlookup, Hcall. destruct err as [e|]; cbn [goesOnToParse].
  - destruct (statusOf e =? 1); [apply parseAndReport_log|].
    cbn. rewrite app_nil_r. reflexivity.
  - apply parseAndReport_log.
Qed.

Lemma pingToURL_parser_called_witness :
  let p := mockPing "ttl=" (Some (otherError "signal: killed")) in
  lookupOk "example.org" = (["93.184.216.34"], None) /\
  trace (snd (pingToURL "linux" lookupOk formatAny p "example.org" world0)) =
    trace (atCall "linux" formatAny p "example.org" world0) ++ [].
Proof.
  cbv zeta. split; [reflexivity|].
  apply (pingToURL_parser_called "linux" lookupOk formatAny
           (mockPing "ttl=" (Some (otherError "signal: killed")))
           "example.org" world0 ["93.184.216.34"] "ttl="
           (Some (otherError "signal: killed"))); reflexivity.
Defined.

Lemma pingToURL_success_witness :
  let p := mockPing sampleOutput None in
  let w' := atCall "linux" formatAny p "example.org" world0 in
  lookupOk "example.org" = (["93.184.216.34"], None) /\
  processPingOutput sampleOutput =
    Ret (2, 2, 54, f34_843, f43_508, f52_172, f8_664, None) /\
  0 < wg w' /\
  exists fs,
    pingToURL "linux" lookupOk formatAny p "example.org" world0 =
      (Ret tt,
       counted
         (reported (logged w' [EvProcessPingOutput sampleOutput])
            {| measurement := "ping"; fields := fs;
               tags := {[ "url" := "example.org" ]} |})
         (-1))
    /\ forall key,
         fs !! key =
           statsField 0 2 2 54 f34_843 f43_508 f52_172 f8_664 key.
Proof.
  cbv zeta.
  split; [reflexivity|split; [vm_compute; reflexivity|split; [reflexivity|]]].
  apply (pingToURL_success "linux" lookupOk formatAny
           (mockPing sampleOutput None) "example.org" world0
           ["93.184.216.34"] sampleOutput).
  - reflexivity.
  - reflexivity.
  - vm_compute; reflexivity.
  - reflexivity.
Defined.

Lemma pingToURL_parse_failure_witness :
  let out := "connect: Network is unreachable" in
  let p := mockPing out (Some (exited 1)) in
  let w' := atCall "linux" formatAny p "example.org" world0 in
  lookupOk "example.org" = (["93.184.216.34"], None) /\
  goesOnToParse (Some (exited 1)) = true /\
  0 < wg w' /\
  pingToURL "linux" lookupOk formatAny p "example.org" world0 =
    (Ret tt,
     counted
       (reported
          (failed (logged w' [EvProcessPingOutput out])
                  (fmtErrorf "%s: %s"
                     [argError (errorsNew "Fatal error processing ping output");
                      argString "example.org"]))
          (failureMetric "example.org" 2))
       (-1)).
Proof.
  cbv zeta.
  split; [reflexivity|split; [reflexivity|split; [reflexivity|]]].
  apply (pingToURL_parse_failure "linux" lookupOk formatAny
           (mockPing "connect: Network is unreachable" (Some (exited 1)))
           "example.org" world0 ["93.184.216.34"]
           "connect: Network is unreachable" (Some (exited 1)) _
           0 0 (-1) minus1 minus1 minus1 minus1).
  - reflexivity.
  - reflexivity.
  - reflexivity.
  - vm_compute; reflexivity.
  - reflexivity.
Defined.

Lemma pingToURL_parser_panic_witness :
  let out := "2 packets transmitted 0 received" in
  let p := mockPing out None in
  let w' := atCall "linux" formatAny p "example.org" world0 in
  lookupOk "example.org" = (["93.184.216.34"], None) /\
  processPingOutput out = Panic "runtime error: index out of range" /\
  pingToURL "linux" lookupOk formatAny p "example.org" world0 =
    (Panic "runtime error: index out of range",
     counted (logged w' [EvProcessPingOutput out]) (-1)).
Proof.
  cbv zeta.
  split; [reflexivity|split; [vm_compute; reflexivity|]].
  apply (pingToURL_parser_panic "linux" lookupOk formatAny
           (mockPing "2 packets transmitted 0 received" None)
           "example.org" world0 ["93.184.216.34"]
           "2 packets transmitted 0 received" None).
  - reflexivity.
  - reflexivity.
  - reflexivity.
  - vm_compute; reflexivity.
Defined.

Lemma pingToURL_one_record_witness :
  let p := mockPing sampleOutput None in
  let run := pingToURL "linux" lookupOk formatAny p "example.org" world0 in
  run = (Ret tt, snd run) /\
  exists m code,
    measurement m = "ping" /\ tags m = {[ "url" := "example.org" ]} /\
    fields m !! "result_code" = Some (VInt code) /\
    (code = 0 \/ code = 1 \/ code = 2) /\
    exists out err w',
      pingHost p (Binary p) (totalTimeout p)
               (args formatAny p "example.org" "linux")
               (atCall "linux" formatAny p "example.org" world0) =
        (Ret (out, err), w') /\
      accMetrics (snd run) = accMetrics w' ++ [m].
Proof.
  cbv zeta. split; [vm_compute; reflexivity|].
  apply (pingToURL_one_record "linux" lookupOk formatAny
           (mockPing sampleOutput None) "example.org" world0).
  vm_compute; reflexivity.
Defined.


Lemma pingToURL_binary_not_found_witness :
  let p := defaultPing lookPathFails runsSample in
  lookupOk "example.org" = (["93.184.216.34"], None) /\
  pingHost p = hostPinger lookPathFails runsSample /\
  lookPathFails (Binary p) =
    ("", Some (otherError "executable file not found in $PATH")) /\
  pingToURL "linux" lookupOk formatAny p "example.org" world0 =
    (Ret tt,
     counted
       (reported
          (failed (logged (atCall "linux" formatAny p "example.org" world0)
                          [EvLookPath "ping"])
                  (fmtErrorf "host %s: %s"
                     [argString "example.org";
                      argError
                        (otherError "executable file not found in $PATH")]))
          (failureMetric "example.org" 2))
       (-1)).
Proof.
  cbv zeta.
  split; [reflexivity|split; [reflexivity|split; [reflexivity|]]].
  apply (pingToURL_binary_not_found "linux" lookupOk formatAny
           lookPathFails runsSample (defaultPing lookPathFails runsSample)
           "example.org" world0 ["93.184.216.34"] "").
  - reflexivity.
  - reflexivity.
  - reflexivity.
  - discriminate.
  - reflexivity.
Defined.
